(** * Shallow embedding of the M5Stack AtomS3 logic analyzer core

    Source: [src/include/logic_analyzer.h], [src/src/logic_analyzer.cpp].

    The single [LogicAnalyzer] object is modelled as a record; every member
    function becomes a state transformer over that record.  Reads of the
    hardware clock ([micros], [millis]), of the sampled pin, of the UART FIFO
    and the outcome of LittleFS calls are inputs gathered in [Env].  Console
    output ([Serial.print*]) is not part of the analyzer's state and is not
    modelled; the analyzer's own log is [serialLogBuffer] (fed by
    [addLogEntry]). *)

From Stdlib Require Import ZArith List String Ascii Bool Lia.
From coqutil Require Import Datatypes.RecordSetters.
Import ListNotations DoubleBraceUpdate.

Open Scope string_scope.
Open Scope list_scope.
Open Scope Z_scope.

(** Arduino [String] concatenation. *)
Notation "a +s b" := (String.append a b) (at level 60, right associativity).

(** ** Constants of [logic_analyzer.h] *)

Definition BUFFER_SIZE : Z := 16384.
Definition MAX_BUFFER_SIZE : Z := 262144.
Definition FLASH_BUFFER_SIZE : Z := 1000000.
Definition MAX_FLASH_BUFFER_SIZE : Z := 2000000.
Definition FLASH_CHUNK_SIZE : Z := 4096.
Definition DEFAULT_SAMPLE_RATE : Z := 1000000.
Definition MIN_SAMPLE_RATE : Z := 10.
Definition MAX_SAMPLE_RATE : Z := 40000000.
(** [ATOMS3_BUILD] (the dual-mode code only exists in that build). *)
Definition CHANNEL_0_PIN : Z := 1.
Definition MAX_LOG_ENTRIES : nat := 100.
Definition MAX_UART_ENTRIES : Z := 1000000.
Definition UART_MSG_MAX_LENGTH : nat := 1000.
(** [sizeof(Sample)]: a [uint32_t] and a [bool], padded to 8 bytes. *)
Definition sizeof_Sample : Z := 8.
(** Capacity of the [malloc]ed compression buffer. *)
Definition COMPRESSED_CAPACITY : Z := 1000.

(** [uint32_t] wrap-around. *)
Definition u32 (z : Z) : Z := z mod 2 ^ 32.

(** ** Data model *)

Record Sample := mkSample { timestamp : Z; data : bool }.

Inductive TriggerMode :=
| TRIGGER_NONE | TRIGGER_RISING_EDGE | TRIGGER_FALLING_EDGE
| TRIGGER_BOTH_EDGES | TRIGGER_HIGH_LEVEL | TRIGGER_LOW_LEVEL.

Inductive BufferMode := BUFFER_RAM | BUFFER_FLASH | BUFFER_STREAMING | BUFFER_COMPRESSED.

Inductive CompressionType := COMPRESS_NONE | COMPRESS_RLE | COMPRESS_DELTA | COMPRESS_HYBRID.

Inductive UartDuplexMode := UART_FULL_DUPLEX | UART_HALF_DUPLEX.

Definition TriggerMode_to_Z (m : TriggerMode) : Z :=
  match m with
  | TRIGGER_NONE => 0 | TRIGGER_RISING_EDGE => 1 | TRIGGER_FALLING_EDGE => 2
  | TRIGGER_BOTH_EDGES => 3 | TRIGGER_HIGH_LEVEL => 4 | TRIGGER_LOW_LEVEL => 5
  end.

Definition CompressionType_to_Z (c : CompressionType) : Z :=
  match c with
  | COMPRESS_NONE => 0 | COMPRESS_RLE => 1 | COMPRESS_DELTA => 2 | COMPRESS_HYBRID => 3
  end.

Definition TriggerMode_eqb (a b : TriggerMode) : bool :=
  TriggerMode_to_Z a =? TriggerMode_to_Z b.

Definition isFlashBacked (m : BufferMode) : bool :=
  match m with BUFFER_FLASH | BUFFER_STREAMING => true | _ => false end.

(** [struct CompressedSample]; the [uint8_t type] flag holds a
    [CompressionType]. *)
Record CompressedSample := mkCompressed {
  c_timestamp : Z; c_count : Z; c_data : bool; c_type : CompressionType }.

(** [struct LogicConfig] (field names prefixed where they clash). *)
Record LogicConfig := mkLogicConfig {
  lc_sampleRate : Z;
  lc_gpioPin : Z;
  lc_triggerMode : TriggerMode;
  lc_bufferSize : Z;
  lc_preTriggerPercent : Z;
  bufferMode : BufferMode;
  compression : CompressionType;
  streamingMode : bool;
  maxFlashSamples : Z }.

(** [struct UartConfig], the fields the core reads. *)
Record UartConfig := mkUartConfig {
  rxPin : Z;
  txPin : Z;
  duplexMode : UartDuplexMode }.

(** [class LogicAnalyzer].  Representation choices:
    - [buffer] is the array [Sample buffer[BUFFER_SIZE]] as a function of
      the index;
    - [compressedBuffer] is [None] for a null pointer, otherwise the
      entries [0 .. compressedCount-1] of the 1000-entry array (so
      [compressedCount] is its length);
    - [flashWriteBuffer] is [None] for a null pointer, otherwise the samples
      staged in the 4 KiB chunk ([bufferPosition] bytes);
    - [flashDataFile] says whether the [File] handle is open, and
      [flashFileData] lists the [File::write] calls made on
      [/logic_samples.bin]: each is the staged chunk that was passed and the
      number of its leading bytes that the write reports as written, so the
      file holds those leading bytes of each chunk, in order;
    - [uartSerial] says whether the [HardwareSerial*] is non-null, and
      [uartLogFile] is the content of [/uart_logs.txt];
    - [preferences] says whether the [Preferences*] is non-null. *)
Record LogicAnalyzer := mkLogicAnalyzer {
  buffer : Z -> Sample;
  writeIndex : Z;
  readIndex : Z;
  capturing : bool;
  sampleRate : Z;
  gpio1Pin : Z;
  triggerMode : TriggerMode;
  lastState : bool;
  triggerArmed : bool;
  lastSampleTime : Z;
  sampleInterval : Z;
  serialLogBuffer : list string;
  uartLogBuffer : list string;
  logicConfig : LogicConfig;
  uartConfig : UartConfig;
  uartSerial : bool;
  uartMonitoringEnabled : bool;
  uartRxBuffer : string;
  lastUartActivity : Z;
  uartBytesReceived : Z;
  uartBytesSent : Z;
  halfDuplexTxMode : bool;
  halfDuplexTxTimeout : Z;
  halfDuplexTxQueue : string;
  halfDuplexBusy : bool;
  dualModeActive : bool;
  maxUartEntries : Z;
  useFlashStorage : bool;
  uartLogFile : list string;
  flashDataFile : bool;
  flashFileData : list (list Sample * Z);
  flashSamplesWritten : Z;
  flashWritePosition : Z;
  flashStorageActive : bool;
  compressedBuffer : option (list CompressedSample);
  lastTimestamp : Z;
  lastData : bool;
  runLength : Z;
  streamingActive : bool;
  streamingCount : Z;
  flashWriteBuffer : option (list Sample);
  bufferPosition : Z;
  preferences : bool }.

(** Inputs of one call: [micros()] at the start of [process], [micros()]
    inside [addSample], [millis()], the level of the sampled pin, the bytes
    waiting in the UART FIFO, whether LittleFS calls ([begin], [open],
    [remove]) succeed, whether the formatting [LittleFS.begin(true)]
    succeeds, [LittleFS.totalBytes()] and [LittleFS.usedBytes()], and the
    count [File::write] returns when asked to write [n] bytes. *)
Record Env := mkEnv {
  now_us : Z;
  sample_us : Z;
  now_ms : Z;
  pin : bool;
  rx_avail : list ascii;
  fs_ok : bool;
  fs_format_ok : bool;
  fs_total : Z;
  fs_used : Z;
  fs_write : Z -> Z }.

(** [LogicAnalyzer::LogicAnalyzer()] with the members' default initialisers;
    the global object lives in zero-initialised static storage. *)
Definition LogicAnalyzer_new : LogicAnalyzer := {|
  buffer := fun _ => mkSample 0 false;
  writeIndex := 0; readIndex := 0; capturing := false;
  sampleRate := DEFAULT_SAMPLE_RATE; gpio1Pin := CHANNEL_0_PIN;
  triggerMode := TRIGGER_NONE; lastState := false; triggerArmed := false;
  lastSampleTime := 0; sampleInterval := 1000000 / DEFAULT_SAMPLE_RATE;
  serialLogBuffer := []; uartLogBuffer := [];
  logicConfig := {| lc_sampleRate := DEFAULT_SAMPLE_RATE; lc_gpioPin := CHANNEL_0_PIN;
                    lc_triggerMode := TRIGGER_NONE; lc_bufferSize := FLASH_BUFFER_SIZE;
                    lc_preTriggerPercent := 10; bufferMode := BUFFER_FLASH;
                    compression := COMPRESS_NONE; streamingMode := false;
                    maxFlashSamples := FLASH_BUFFER_SIZE |};
  uartConfig := {| rxPin := 7; txPin := -1; duplexMode := UART_FULL_DUPLEX |};
  uartSerial := false; uartMonitoringEnabled := false; uartRxBuffer := EmptyString;
  lastUartActivity := 0; uartBytesReceived := 0; uartBytesSent := 0;
  halfDuplexTxMode := false; halfDuplexTxTimeout := 0; halfDuplexTxQueue := EmptyString;
  halfDuplexBusy := false; dualModeActive := false;
  maxUartEntries := MAX_UART_ENTRIES; useFlashStorage := true; uartLogFile := [];
  flashDataFile := false; flashFileData := []; flashSamplesWritten := 0;
  flashWritePosition := 0; flashStorageActive := false;
  compressedBuffer := None; lastTimestamp := 0; lastData := false; runLength := 0;
  streamingActive := false; streamingCount := 0;
  flashWriteBuffer := None; bufferPosition := 0; preferences := false |}.

(** ** Arduino [String] helpers *)

Fixpoint digits_of (fuel : nat) (base n : Z) (acc : string) : string :=
  match fuel with
  | O => acc
  | S f =>
      let d := n mod base in
      let c := if d <? 10 then ascii_of_nat (48 + Z.to_nat d)
               else ascii_of_nat (87 + Z.to_nat d) in
      let acc' := String c acc in
      if n <? base then acc' else digits_of f base (n / base) acc'
  end.

(** [String(n)] for an integer. *)
Definition String_of_Z (n : Z) : string :=
  if n <? 0 then "-" +s digits_of 40 10 (- n) EmptyString else digits_of 40 10 n EmptyString.

(** [String(c, HEX)] for a byte. *)
Definition String_hex (n : Z) : string := digits_of 40 16 n EmptyString.

Definition String_of_bool (b : bool) : string := if b then "true" else "false".

(** ** Logging: [addLogEntry] *)

Definition logLine (now : Z) (message : string) : string :=
  String_of_Z now +s ": " +s message.

Definition addLogEntry (now : Z) (message : string) (s : LogicAnalyzer) : LogicAnalyzer :=
  let l := serialLogBuffer s ++ [logLine now message] in
  s{{ serialLogBuffer := if Nat.ltb MAX_LOG_ENTRIES (List.length l) then List.tl l else l }}.

(** ** Trigger engine: [checkTrigger] *)

Definition checkTrigger (s : LogicAnalyzer) (currentState : bool) : bool :=
  match triggerMode s with
  | TRIGGER_RISING_EDGE => negb (lastState s) && currentState
  | TRIGGER_FALLING_EDGE => lastState s && negb currentState
  | TRIGGER_BOTH_EDGES => negb (Bool.eqb (lastState s) currentState)
  | TRIGGER_HIGH_LEVEL => currentState
  | TRIGGER_LOW_LEVEL => negb currentState
  | TRIGGER_NONE => true
  end.

(** ** Buffer state: [getBufferUsage], [isBufferFull], [clearBuffer] *)

Definition getBufferUsage (s : LogicAnalyzer) : Z :=
  if isFlashBacked (bufferMode (logicConfig s)) then flashSamplesWritten s
  else if readIndex s <=? writeIndex s then writeIndex s - readIndex s
  else (BUFFER_SIZE - readIndex s) + writeIndex s.

Definition isBufferFull (s : LogicAnalyzer) : bool :=
  if isFlashBacked (bufferMode (logicConfig s))
  then maxFlashSamples (logicConfig s) <=? flashSamplesWritten s
  else BUFFER_SIZE - 1 <=? getBufferUsage s.

(** Closing the file handle and [LittleFS.remove] of the capture file. *)
Definition clearBuffer (s : LogicAnalyzer) : LogicAnalyzer :=
  let s := s{{ writeIndex := 0; readIndex := 0 }} in
  if isFlashBacked (bufferMode (logicConfig s)) then
    let staged := match flashWriteBuffer s with Some _ => Some [] | None => None end in
    s{{ flashSamplesWritten := 0; flashWritePosition := 0; bufferPosition := 0;
        flashWriteBuffer := staged; flashDataFile := false; flashFileData := [] }}
  else s.

Definition BufferMode_eqb (a b : BufferMode) : bool :=
  match a, b with
  | BUFFER_RAM, BUFFER_RAM | BUFFER_FLASH, BUFFER_FLASH
  | BUFFER_STREAMING, BUFFER_STREAMING | BUFFER_COMPRESSED, BUFFER_COMPRESSED => true
  | _, _ => false
  end.

Definition isHalfDuplex (s : LogicAnalyzer) : bool :=
  match duplexMode (uartConfig s) with UART_HALF_DUPLEX => true | UART_FULL_DUPLEX => false end.

(** ** Flash persistence layer *)

(** [flushFlashBuffer]: opens the capture file in append mode when no handle
    is open.  [File::write] is passed the [bufferPosition] staged bytes and
    returns [written = fs_write e bufferPosition]; the write position
    advances by [written] and the chunk is reset ([bufferPosition = 0])
    whatever [written] is.  When the file cannot be opened the staged
    samples stay in the chunk. *)
Definition flushFlashBuffer (e : Env) (s : LogicAnalyzer) : LogicAnalyzer :=
  match flashWriteBuffer s with
  | None => s
  | Some staged =>
      if bufferPosition s =? 0 then s else
      let opened := flashDataFile s || fs_ok e in
      let s := s{{ flashDataFile := opened }} in
      if opened then
        let written := fs_write e (bufferPosition s) in
        s{{ flashFileData := flashFileData s ++ [(staged, written)];
            flashWritePosition := u32 (flashWritePosition s + written);
            bufferPosition := 0;
            flashWriteBuffer := Some [] }}
      else s
  end.

(** [writeToFlash]: [memcpy] into the chunk, then flush once fewer than
    [sizeof(Sample)] bytes are left. *)
Definition writeToFlash (e : Env) (sample : Sample) (s : LogicAnalyzer) : LogicAnalyzer :=
  match flashWriteBuffer s with
  | None => s
  | Some staged =>
      let s := s{{ flashWriteBuffer := Some (staged ++ [sample]);
                   bufferPosition := u32 (bufferPosition s + sizeof_Sample);
                   flashSamplesWritten := u32 (flashSamplesWritten s + 1) }} in
      if FLASH_CHUNK_SIZE - sizeof_Sample <=? bufferPosition s then flushFlashBuffer e s else s
  end.

(** ** Compression encoder *)

Definition compressedCount (s : LogicAnalyzer) : Z :=
  match compressedBuffer s with
  | Some l => Z.of_nat (List.length l)
  | None => 0
  end.

(** Store [compressedBuffer[compressedCount++]] while fewer than 1000
    records are held. *)
Definition pushCompressed (r : CompressedSample) (s : LogicAnalyzer) : LogicAnalyzer :=
  match compressedBuffer s with
  | Some l =>
      if Z.of_nat (List.length l) <? COMPRESSED_CAPACITY
      then s{{ compressedBuffer := Some (l ++ [r]) }} else s
  | None => s
  end.

(** [compressRunLength]; [count] is a [uint16_t] parameter. *)
Definition compressRunLength (d : bool) (ts count : Z) (s : LogicAnalyzer) : LogicAnalyzer :=
  pushCompressed (mkCompressed ts (count mod 2 ^ 16) d COMPRESS_RLE) s.

Definition compressDelta (ts : Z) (d : bool) (s : LogicAnalyzer) : LogicAnalyzer :=
  pushCompressed (mkCompressed (u32 (ts - lastTimestamp s)) 1 d COMPRESS_DELTA) s.

Definition compressSample (sample : Sample) (s : LogicAnalyzer) : LogicAnalyzer :=
  match compressedBuffer s with
  | None => s
  | Some _ =>
      let s :=
        match compression (logicConfig s) with
        | COMPRESS_RLE => compressRunLength (data sample) (timestamp sample) 1 s
        | COMPRESS_DELTA => compressDelta (timestamp sample) (data sample) s
        | COMPRESS_HYBRID =>
            if Bool.eqb (data sample) (lastData s) && (runLength s <? 65535)
            then s{{ runLength := runLength s + 1 }}
            else
              let s := if 0 <? runLength s
                       then compressRunLength (lastData s) (lastTimestamp s) (runLength s) s
                       else s in
              (compressDelta (timestamp sample) (data sample) s){{ runLength := 1 }}
        | COMPRESS_NONE => s
        end in
      s{{ lastTimestamp := timestamp sample; lastData := data sample }}
  end.

(** ** Streaming *)

(** [*(Sample* )&compressedBuffer[i]]: bytes 0..3 are the timestamp, byte 4
    is the low byte of [count]. *)
Definition compressedAsSample (c : CompressedSample) : Sample :=
  mkSample (c_timestamp c) (negb (c_count c mod 256 =? 0)).

Definition processStreamingSample (e : Env) (sample : Sample) (s : LogicAnalyzer)
  : LogicAnalyzer :=
  if negb (streamingActive s) then s else
  let s := s{{ streamingCount := u32 (streamingCount s + 1) }} in
  let s :=
    match compression (logicConfig s) with
    | COMPRESS_NONE => writeToFlash e sample s
    | _ =>
        let s := compressSample sample s in
        if 500 <=? compressedCount s then
          let recs := match compressedBuffer s with Some l => l | None => [] end in
          let s := fold_left (fun st c => writeToFlash e (compressedAsSample c) st) recs s in
          s{{ compressedBuffer := option_map (fun _ => []) (compressedBuffer s) }}
        else s
    end in
  if streamingCount s mod 1000 =? 0 then flushFlashBuffer e s else s.

(** ** Buffer manager: [addSample] *)

Definition addSample (e : Env) (d : bool) (s : LogicAnalyzer) : LogicAnalyzer :=
  let sample := mkSample (u32 (sample_us e)) d in
  match bufferMode (logicConfig s) with
  | BUFFER_RAM =>
      s{{ buffer := (fun i => if i =? writeIndex s then sample else buffer s i);
          writeIndex := (writeIndex s + 1) mod BUFFER_SIZE }}
  | BUFFER_FLASH => writeToFlash e sample s
  | BUFFER_STREAMING => processStreamingSample e sample s
  | BUFFER_COMPRESSED => compressSample sample s
  end.

(** ** Capture control *)

Definition startCapture (e : Env) (s : LogicAnalyzer) : LogicAnalyzer :=
  let s := clearBuffer s in
  let s := s{{ triggerArmed := TriggerMode_eqb (triggerMode s) TRIGGER_NONE;
               lastSampleTime := u32 (now_us e);
               capturing := true }} in
  addLogEntry (now_ms e) "Capture started on GPIO1" s.

Definition stopCapture (e : Env) (s : LogicAnalyzer) : LogicAnalyzer :=
  let s := s{{ capturing := false }} in
  let mode := bufferMode (logicConfig s) in
  let maxSize := if isFlashBacked mode then maxFlashSamples (logicConfig s) else BUFFER_SIZE in
  let s := addLogEntry (now_ms e)
             ("Capture stopped. Buffer: " +s String_of_Z (getBufferUsage s) +s "/"
              +s String_of_Z maxSize +s " ("
              +s (if BufferMode_eqb mode BUFFER_FLASH then "Flash" else "RAM") +s ")") s in
  if BufferMode_eqb mode BUFFER_FLASH then flushFlashBuffer e s else s.

(** ** UART log store *)

(** [compactUartLogs].  The source compares [size() >= maxUartEntries * 0.9]
    and removes [maxUartEntries * 0.2] entries in [double]; the model uses the
    exact rationals, which agree with the [double] results for the
    capacities considered here (for 1000: 900 and 200). *)
Definition compactUartLogs (now : Z) (s : LogicAnalyzer) : LogicAnalyzer :=
  let size := Z.of_nat (List.length (uartLogBuffer s)) in
  if 9 * maxUartEntries s <=? 10 * size then
    let removeCount := (2 * maxUartEntries s) / 10 in
    let s := s{{ uartLogBuffer := skipn (Z.to_nat removeCount) (uartLogBuffer s) }} in
    addLogEntry now
      ("UART buffer compacted: removed " +s String_of_Z removeCount
       +s " oldest entries (" +s String_of_Z (Z.of_nat (List.length (uartLogBuffer s)))
       +s "/" +s String_of_Z (maxUartEntries s) +s " remaining)") s
  else s.

Definition addUartEntry (e : Env) (d : string) (isRx : bool) (s : LogicAnalyzer)
  : LogicAnalyzer :=
  let direction := if isRx then "RX" else "TX" in
  let uartEntry := String_of_Z (now_ms e) +s ": [UART " +s direction +s "] " +s d in
  let s :=
    if useFlashStorage s then
      if fs_ok e then s{{ uartLogFile := uartLogFile s ++ [uartEntry] }}
      else s{{ uartLogBuffer := uartLogBuffer s ++ [uartEntry] }}
    else
      let s := s{{ uartLogBuffer := uartLogBuffer s ++ [uartEntry] }} in
      if maxUartEntries s <? Z.of_nat (List.length (uartLogBuffer s))
      then compactUartLogs (now_ms e) s else s in
  addLogEntry (now_ms e) ("UART " +s direction +s ": " +s d) s.

(** ** UART monitor: line framing of received bytes *)

(** One iteration of the receive loop; [dual] selects the tags of
    [processDualModeData] instead of those of [processUartData].  A
    non-printable byte is escaped with the hexadecimal value of the byte. *)
Definition uartFeedByte (e : Env) (dual : bool) (s : LogicAnalyzer) (c : ascii)
  : LogicAnalyzer :=
  let s := s{{ uartBytesReceived := u32 (uartBytesReceived s + 1);
               lastUartActivity := u32 (now_ms e) }} in
  let n := Z.of_nat (nat_of_ascii c) in
  if (n =? 10) || (n =? 13) then
    if Nat.ltb 0 (String.length (uartRxBuffer s)) then
      let s := addUartEntry e (uartRxBuffer s +s (if dual then " [DUAL]" else EmptyString)) true s in
      s{{ uartRxBuffer := EmptyString }}
    else s
  else if (32 <=? n) && (n <=? 126) then
    let s := s{{ uartRxBuffer := uartRxBuffer s +s String c EmptyString }} in
    if Nat.ltb UART_MSG_MAX_LENGTH (String.length (uartRxBuffer s)) then
      let s := addUartEntry e
                 (uartRxBuffer s +s (if dual then " [DUAL-TRUNC]" else " [TRUNCATED]")) true s in
      s{{ uartRxBuffer := EmptyString }}
    else s
  else s{{ uartRxBuffer := uartRxBuffer s +s "[0x" +s String_hex n +s "]" }}.

(** Force-flush of a partial line after more than 1000 ms without data. *)
Definition uartTimeout (e : Env) (suffix : string) (s : LogicAnalyzer) : LogicAnalyzer :=
  if Nat.ltb 0 (String.length (uartRxBuffer s))
     && (1000 <? u32 (now_ms e - lastUartActivity s)) then
    let s := addUartEntry e (uartRxBuffer s +s suffix) true s in
    s{{ uartRxBuffer := EmptyString }}
  else s.

(** ** Half-duplex engine (peripheral reconfiguration is not modelled) *)

Definition switchToTxMode (e : Env) (s : LogicAnalyzer) : LogicAnalyzer :=
  if negb (halfDuplexTxMode s) then
    addLogEntry (now_ms e) "Half-duplex: Switched to TX mode" (s{{ halfDuplexTxMode := true }})
  else s.

Definition switchToRxMode (e : Env) (s : LogicAnalyzer) : LogicAnalyzer :=
  if halfDuplexTxMode s then
    addLogEntry (now_ms e) "Half-duplex: Switched to RX mode"
      (s{{ halfDuplexTxMode := false; halfDuplexBusy := false }})
  else s.

Definition processHalfDuplexQueue (e : Env) (s : LogicAnalyzer) : LogicAnalyzer :=
  if negb (String.eqb (halfDuplexTxQueue s) EmptyString) && negb (halfDuplexBusy s) then
    let s := switchToTxMode e s in
    let s := addUartEntry e (halfDuplexTxQueue s) false s in
    let s := s{{ uartBytesSent :=
                   u32 (uartBytesSent s + Z.of_nat (String.length (halfDuplexTxQueue s)));
                 halfDuplexTxQueue := EmptyString;
                 halfDuplexTxTimeout := u32 (now_ms e);
                 halfDuplexBusy := true }} in
    addLogEntry (now_ms e) "Half-duplex: Command sent, waiting for response" s
  else s.

(** [sendHalfDuplexCommand], returning its [bool] result with the new state. *)
Definition sendHalfDuplexCommand (e : Env) (command : string) (s : LogicAnalyzer)
  : bool * LogicAnalyzer :=
  if negb (isHalfDuplex s) then
    (false, addLogEntry (now_ms e)
              "Error: Half-duplex command sent but not in half-duplex mode" s)
  else if halfDuplexBusy s then
    let s := addLogEntry (now_ms e) ("Error: Half-duplex busy, command queued: " +s command) s in
    (false, s{{ halfDuplexTxQueue := command +s String "013" (String "010" EmptyString) }})
  else
    let s := s{{ halfDuplexTxQueue := command +s String "013" (String "010" EmptyString) }} in
    (true, addLogEntry (now_ms e) ("Half-duplex: Command queued - " +s command) s).

Definition processUartData (e : Env) (s : LogicAnalyzer) : LogicAnalyzer :=
  if negb (uartSerial s) || negb (uartMonitoringEnabled s) then s else
  let s :=
    if isHalfDuplex s then
      let s := processHalfDuplexQueue e s in
      if halfDuplexTxMode s && (100 <? u32 (now_ms e - halfDuplexTxTimeout s))
      then switchToRxMode e s else s
    else s in
  if negb (isHalfDuplex s) || negb (halfDuplexTxMode s) then
    let s := fold_left (uartFeedByte e false) (rx_avail e) s in
    uartTimeout e " [TIMEOUT]" s
  else s.

(** ** Dual-mode coordinator *)

Definition isDualModeCompatible (s : LogicAnalyzer) : bool :=
  rxPin (uartConfig s) =? lc_gpioPin (logicConfig s).

Definition enableDualMode (e : Env) (enable : bool) (s : LogicAnalyzer) : LogicAnalyzer :=
  if enable && isDualModeCompatible s then
    addLogEntry (now_ms e)
      ("Dual-mode activated: UART + Logic on GPIO" +s String_of_Z (lc_gpioPin (logicConfig s)))
      (s{{ dualModeActive := true }})
  else if enable && negb (isDualModeCompatible s) then
    addLogEntry (now_ms e)
      ("Dual-mode failed: Pin conflict - UART on GPIO" +s String_of_Z (rxPin (uartConfig s))
       +s ", Logic on GPIO" +s String_of_Z (lc_gpioPin (logicConfig s)))
      (s{{ dualModeActive := false }})
  else
    addLogEntry (now_ms e) "Dual-mode deactivated" (s{{ dualModeActive := false }}).

(** The fields of the [getDualModeStatus] JSON document. *)
Record DualModeStatus := mkDualModeStatus {
  dual_mode_active : bool;
  compatible : bool;
  uart_pin : Z;
  logic_pin : Z;
  uart_monitoring : bool;
  logic_capturing : bool;
  logic_samples : Z }.

Definition getDualModeStatus (s : LogicAnalyzer) : DualModeStatus := {|
  dual_mode_active := dualModeActive s;
  compatible := isDualModeCompatible s;
  uart_pin := rxPin (uartConfig s);
  logic_pin := lc_gpioPin (logicConfig s);
  uart_monitoring := uartMonitoringEnabled s;
  logic_capturing := capturing s;
  logic_samples := getBufferUsage s |}.

Definition processDualModeData (e : Env) (currentState : bool) (s : LogicAnalyzer)
  : LogicAnalyzer :=
  let s :=
    if negb (TriggerMode_eqb (triggerMode s) TRIGGER_NONE) && negb (triggerArmed s) then
      let s := if checkTrigger s currentState then
                 addLogEntry (now_ms e)
                   ("Dual-mode trigger activated on GPIO" +s String_of_Z (lc_gpioPin (logicConfig s)))
                   (s{{ triggerArmed := true }})
               else s in
      s{{ lastState := currentState }}
    else s in
  let s := if triggerArmed s then addSample e currentState s else s in
  let s := if uartSerial s then fold_left (uartFeedByte e true) (rx_avail e) s else s in
  let s := uartTimeout e " [DUAL-TIMEOUT]" s in
  let s := s{{ lastState := currentState }} in
  if isBufferFull s then
    (addLogEntry (now_ms e) "Dual-mode Logic buffer full - stopping capture" s){{ capturing := false }}
  else s.

(** ** Acquisition loop: [process] *)

Definition process (e : Env) (s : LogicAnalyzer) : LogicAnalyzer :=
  if dualModeActive s && uartMonitoringEnabled s && capturing s then
    let currentTime := u32 (now_us e) in
    if sampleInterval s <=? u32 (currentTime - lastSampleTime s) then
      (processDualModeData e (pin e) s){{ lastSampleTime := currentTime }}
    else s
  else
    let s := if uartMonitoringEnabled s then processUartData e s else s in
    if negb (capturing s) then s else
    let currentTime := u32 (now_us e) in
    if sampleInterval s <=? u32 (currentTime - lastSampleTime s) then
      let currentState := pin e in
      if negb (TriggerMode_eqb (triggerMode s) TRIGGER_NONE) && negb (triggerArmed s) then
        let s := if checkTrigger s currentState then
                   addLogEntry (now_ms e) "Trigger activated on GPIO1" (s{{ triggerArmed := true }})
                 else s in
        s{{ lastState := currentState }}
      else
        let s := addSample e currentState s in
        let s := s{{ lastSampleTime := currentTime; lastState := currentState }} in
        if isBufferFull s then
          stopCapture e (addLogEntry (now_ms e) "Buffer full - auto-stopping capture" s)
        else s
    else s.

(** ** Configuration *)

Definition setSampleRate (rate : Z) (s : LogicAnalyzer) : LogicAnalyzer :=
  let rate := if rate <? MIN_SAMPLE_RATE then MIN_SAMPLE_RATE else rate in
  let rate := if MAX_SAMPLE_RATE <? rate then MAX_SAMPLE_RATE else rate in
  s{{ sampleRate := rate; sampleInterval := 1000000 / rate }}.

Definition setTrigger (mode : TriggerMode) (s : LogicAnalyzer) : LogicAnalyzer :=
  s{{ triggerMode := mode; triggerArmed := false }}.


(** [saveLogicConfig]; the [Preferences] stores themselves are not part of
    the analyzer's state, only the log entry each branch adds. *)
Definition saveLogicConfig (e : Env) (s : LogicAnalyzer) : LogicAnalyzer :=
  if preferences s then
    addLogEntry (now_ms e)
      ("Logic config saved: " +s String_of_Z (lc_sampleRate (logicConfig s)) +s "Hz, GPIO"
       +s String_of_Z (lc_gpioPin (logicConfig s)) +s ", Trigger:"
       +s String_of_Z (TriggerMode_to_Z (lc_triggerMode (logicConfig s)))) s
  else addLogEntry (now_ms e) "Logic config save failed - no preferences available" s.

(** [configureLogic]; the [TriggerMode] range check is vacuous on the
    inductive type. *)
Definition configureLogic (e : Env) (rate gpioPin : Z) (mode : TriggerMode)
  (bufferSize preTriggerPercent : Z) (s : LogicAnalyzer) : LogicAnalyzer :=
  let rate := if rate <? MIN_SAMPLE_RATE then MIN_SAMPLE_RATE else rate in
  let rate := if MAX_SAMPLE_RATE <? rate then MAX_SAMPLE_RATE else rate in
  let gpioPin := if 48 <? gpioPin then CHANNEL_0_PIN else gpioPin in
  let bufferSize := if MAX_BUFFER_SIZE <? bufferSize then MAX_BUFFER_SIZE else bufferSize in
  let bufferSize := if bufferSize <? 1024 then 1024 else bufferSize in
  let preTriggerPercent := if 90 <? preTriggerPercent then 90 else preTriggerPercent in
  let s := s{{ logicConfig -> lc_sampleRate := rate;
               logicConfig -> lc_gpioPin := gpioPin;
               logicConfig -> lc_triggerMode := mode;
               logicConfig -> lc_bufferSize := bufferSize;
               logicConfig -> lc_preTriggerPercent := preTriggerPercent }} in
  let s := setSampleRate rate s in
  let s := setTrigger mode s in
  let s := s{{ gpio1Pin := gpioPin }} in
  let s := saveLogicConfig e s in
  addLogEntry (now_ms e)
    ("Logic Analyzer configured: " +s String_of_Z rate +s "Hz, GPIO" +s String_of_Z gpioPin
     +s ", Trigger:" +s String_of_Z (TriggerMode_to_Z mode) +s ", Buffer:"
     +s String_of_Z bufferSize +s ", PreTrig:" +s String_of_Z preTriggerPercent +s "%") s.

(** ** Buffer-mode selection *)

(** [initFlashLogicStorage]; [LittleFS.begin()] succeeds iff [fs_ok], and
    the [malloc]s are taken to succeed. *)
Definition initFlashLogicStorage (e : Env) (s : LogicAnalyzer) : LogicAnalyzer :=
  if negb (fs_ok e) then addLogEntry (now_ms e) "Logic flash storage init failed" s else
  let s := s{{ flashStorageActive := true;
               bufferPosition := 0;
               flashWriteBuffer := Some [];
               compressedBuffer := Some [] }} in
  addLogEntry (now_ms e) "Logic flash storage initialized" s.

(** [enableFlashBuffering]; the [flashHeader] metadata is not modelled. *)
Definition enableFlashBuffering (e : Env) (mode : BufferMode) (maxSamples : Z)
  (s : LogicAnalyzer) : LogicAnalyzer :=
  let s := s{{ logicConfig -> bufferMode := mode }} in
  let maxSamples := if MAX_FLASH_BUFFER_SIZE <? maxSamples then MAX_FLASH_BUFFER_SIZE
                    else maxSamples in
  let s := s{{ logicConfig -> maxFlashSamples := maxSamples }} in
  let s :=
    if isFlashBacked mode then
      let s := initFlashLogicStorage e s in
      let s := addLogEntry (now_ms e)
                 ("Flash buffering enabled: " +s String_of_Z maxSamples
                  +s " max samples (shared 5.6MB flash)") s in
      addLogEntry (now_ms e) "WARNING: Flash storage shared with UART logs" s
    else s in
  if BufferMode_eqb mode BUFFER_COMPRESSED then
    let s := match compressedBuffer s with None => initFlashLogicStorage e s | Some _ => s end in
    addLogEntry (now_ms e)
      ("Compression enabled: " +s String_of_Z (CompressionType_to_Z (compression (logicConfig s)))) s
  else s.

Definition enableCompression (e : Env) (type : CompressionType) (s : LogicAnalyzer)
  : LogicAnalyzer :=
  let s := s{{ logicConfig -> compression := type;
               runLength := 0; lastTimestamp := 0; lastData := false }} in
  let compressionName :=
    match type with
    | COMPRESS_RLE => "RLE" | COMPRESS_DELTA => "Delta"
    | COMPRESS_HYBRID => "Hybrid" | COMPRESS_NONE => "None"
    end in
  addLogEntry (now_ms e) ("Compression enabled: " +s compressionName) s.

Definition enableStreamingMode (e : Env) (enable : bool) (s : LogicAnalyzer) : LogicAnalyzer :=
  let s := s{{ logicConfig -> streamingMode := enable;
               streamingActive := enable; streamingCount := 0 }} in
  if enable then
    addLogEntry (now_ms e) "Streaming mode enabled - continuous capture to flash"
      (initFlashLogicStorage e s)
  else
    let s := flushFlashBuffer e s in
    addLogEntry (now_ms e) "Streaming mode disabled" (s{{ flashDataFile := false }}).

Definition setBufferMode (e : Env) (mode : BufferMode) (s : LogicAnalyzer) : LogicAnalyzer :=
  let s := s{{ logicConfig -> bufferMode := mode }} in
  match mode with
  | BUFFER_FLASH => enableFlashBuffering e mode FLASH_BUFFER_SIZE s
  | BUFFER_STREAMING => enableStreamingMode e true s
  | BUFFER_COMPRESSED => enableCompression e COMPRESS_HYBRID s
  | BUFFER_RAM => s
  end.

(** ** Data export, in a reader-style state monad

    [getDataAsJSON] and [getDataAsCSV] are member functions that only read
    the object; they are written with [gets] for each member read and
    local variables for [count] and [index]. *)

Definition St (A : Type) : Type := LogicAnalyzer -> A * LogicAnalyzer.

Definition st_ret {A} (a : A) : St A := fun s => (a, s).

Definition st_bind {A B} (m : St A) (f : A -> St B) : St B :=
  fun s => let (a, s') := m s in f a s'.

Definition gets {A} (f : LogicAnalyzer -> A) : St A := fun s => (f s, s).

Notation "x <- m ;; k" := (st_bind m (fun x => k))
  (at level 61, m at next level, right associativity).

(** A computation that leaves the object as it found it ([const] member). *)
Definition ReadOnly {A} (m : St A) : Prop := forall s, snd (m s) = s.

Definition dq : string := String (ascii_of_nat 34) EmptyString.
Definition jkey (k : string) : string := dq +s k +s dq +s ":".
Definition jstr (v : string) : string := dq +s v +s dq.

Fixpoint join (sep : string) (l : list string) : string :=
  match l with
  | [] => EmptyString
  | [x] => x
  | x :: r => x +s sep +s join sep r
  end.

Definition stateName (b : bool) : string := if b then "HIGH" else "LOW".

(** One element of the [samples] array. *)
Definition sampleJSON (smp : Sample) : string :=
  "{" +s jkey "timestamp" +s String_of_Z (timestamp smp) +s ","
  +s jkey "gpio1" +s String_of_bool (data smp) +s ","
  +s jkey "state" +s jstr (stateName (data smp)) +s "}".

Fixpoint jsonSamples (n : nat) (index : Z) : St (list string) :=
  match n with
  | O => st_ret []
  | S n' =>
      smp <- gets (fun s => buffer s index) ;;
      rest <- jsonSamples n' ((index + 1) mod BUFFER_SIZE) ;;
      st_ret (sampleJSON smp :: rest)
  end.

Definition getDataAsJSON : St string :=
  count <- gets getBufferUsage ;;
  index <- gets readIndex ;;
  samples <- jsonSamples (Z.to_nat count) index ;;
  rate <- gets sampleRate ;;
  gpin <- gets gpio1Pin ;;
  mode <- gets triggerMode ;;
  st_ret ("{" +s jkey "samples" +s "[" +s join "," samples +s "],"
          +s jkey "sample_count" +s String_of_Z count +s ","
          +s jkey "sample_rate" +s String_of_Z rate +s ","
          +s jkey "gpio_pin" +s String_of_Z gpin +s ","
          +s jkey "buffer_size" +s String_of_Z BUFFER_SIZE +s ","
          +s jkey "trigger_mode" +s String_of_Z (TriggerMode_to_Z mode) +s "}").

Definition nl : string := String (ascii_of_nat 10) EmptyString.

(** One CSV row: 1-based index, timestamp, 0/1, HIGH/LOW. *)
Definition csvRow (i : Z) (smp : Sample) : string :=
  String_of_Z (i + 1) +s "," +s String_of_Z (timestamp smp) +s ","
  +s String_of_Z (if data smp then 1 else 0) +s "," +s stateName (data smp) +s nl.

Fixpoint csvRows (i : Z) (n : nat) (index : Z) : St string :=
  match n with
  | O => st_ret EmptyString
  | S n' =>
      smp <- gets (fun s => buffer s index) ;;
      rest <- csvRows (i + 1) n' ((index + 1) mod BUFFER_SIZE) ;;
      st_ret (csvRow i smp +s rest)
  end.

(** [String(x, 1)] of the usage percentage, rounded to one decimal. *)
Definition percent1 (usage : Z) : string :=
  let tenths := (usage * 1000 * 2 + BUFFER_SIZE) / (2 * BUFFER_SIZE) in
  String_of_Z (tenths / 10) +s "." +s String_of_Z (tenths mod 10).

Definition getDataAsCSV (ms : Z) : St string :=
  rate <- gets sampleRate ;;
  gpin <- gets gpio1Pin ;;
  usage <- gets getBufferUsage ;;
  mode <- gets triggerMode ;;
  (* The first line ends in the two characters backslash and n, as in the
     source literal. *)
  let header :=
    "# M5Stack AtomProbe - GPIO1 Capture Data (CSV Format)\n"
    +s "# Generated: " +s String_of_Z ms +s "ms" +s nl
    +s "# Sample Rate: " +s String_of_Z rate +s " Hz" +s nl
    +s "# GPIO Pin: " +s String_of_Z gpin +s nl
    +s "# Buffer Size: " +s String_of_Z BUFFER_SIZE +s " samples" +s nl
    +s "# Buffer Usage: " +s String_of_Z usage +s "/" +s String_of_Z BUFFER_SIZE
    +s " (" +s percent1 usage +s "%)" +s nl
    +s "# Trigger Mode: " +s String_of_Z (TriggerMode_to_Z mode) +s nl +s nl
    +s "Sample,Timestamp_us,GPIO1_Digital,GPIO1_State" +s nl in
  count <- gets getBufferUsage ;;
  index <- gets readIndex ;;
  rows <- csvRows 0 (Z.to_nat count) index ;;
  st_ret (header +s rows
          +s (if count =? 0 then
                "# No capture data available" +s nl
                +s "# Connect a signal to GPIO" +s String_of_Z gpin +s " and start capture" +s nl
              else EmptyString)).

(** ** UART storage configuration *)

Definition setUartBufferSize (e : Env) (maxEntries : Z) (s : LogicAnalyzer) : LogicAnalyzer :=
  let l := uartLogBuffer s in
  let s := s{{ maxUartEntries := maxEntries;
               uartLogBuffer := skipn (List.length l - Z.to_nat maxEntries) l }} in
  addLogEntry (now_ms e) ("UART buffer size set to " +s String_of_Z maxEntries +s " entries") s.

(** The free-space line of [initFlashStorage]; [size_t] is 32 bits wide. *)
Definition flashInfo (e : Env) : string :=
  let totalBytes := fs_total e in
  let usedBytes := fs_used e in
  "Flash: " +s String_of_Z (totalBytes / 1024) +s "KB total, "
  +s String_of_Z (usedBytes / 1024) +s "KB used, "
  +s String_of_Z (u32 (totalBytes - usedBytes) / 1024) +s "KB free".

(** [initFlashStorage]: [LittleFS.begin()] succeeds iff [fs_ok], the
    formatting [LittleFS.begin(true)] iff [fs_format_ok]. *)
Definition initFlashStorage (e : Env) (s : LogicAnalyzer) : LogicAnalyzer :=
  if fs_ok e then
    let s := addLogEntry (now_ms e) "Flash storage available (LittleFS)" s in
    addLogEntry (now_ms e) (flashInfo e) s
  else
    let s := addLogEntry (now_ms e) "Flash storage mount failed - formatting..." s in
    if fs_format_ok e then
      let s := addLogEntry (now_ms e) "Flash storage formatted and initialized" s in
      addLogEntry (now_ms e) (flashInfo e) s
    else
      let s := addLogEntry (now_ms e) "Flash storage initialization failed - format error" s in
      s{{ useFlashStorage := false }}.

(** ** Drivers used to state the properties *)

(** The trigger table as the specification words it (section 4.1). *)
Definition spec_evaluate (mode : TriggerMode) (last_value current_value : bool) : bool :=
  match mode with
  | TRIGGER_NONE => true
  | TRIGGER_RISING_EDGE => negb last_value && current_value
  | TRIGGER_FALLING_EDGE => last_value && negb current_value
  | TRIGGER_BOTH_EDGES => negb (Bool.eqb last_value current_value)
  | TRIGGER_HIGH_LEVEL => current_value
  | TRIGGER_LOW_LEVEL => negb current_value
  end.

(** Index of the first tick after which the trigger is armed. *)
Fixpoint armIndex (ticks : list Env) (s : LogicAnalyzer) (i : nat) : option nat :=
  match ticks with
  | [] => None
  | e :: r =>
      let s' := process e s in
      if triggerArmed s' then Some i else armIndex r s' (S i)
  end.

(** First index at which the specification's trigger table fires, the
    previous value before index 0 being [last]. *)
Fixpoint firstTrigger (mode : TriggerMode) (last : bool) (vals : list bool) (i : nat)
  : option nat :=
  match vals with
  | [] => None
  | v :: r => if spec_evaluate mode last v then Some i else firstTrigger mode v r (S i)
  end.

(** Ticks at 100 us spacing sampling the given pin levels. *)
Definition tickEnv (t : Z) (v : bool) : Env :=
  mkEnv t t 0 v [] true true 4194304 0 (fun n => n).

Fixpoint ticksFrom (t : Z) (vals : list bool) : list Env :=
  match vals with
  | [] => []
  | v :: r => tickEnv t v :: ticksFrom (t + 100) r
  end.

Definition env0 : Env := tickEnv 0 false.
Definition env_fs_fail : Env := mkEnv 0 0 0 false [] false false 0 0 (fun _ => 0).


(** A fresh analyzer in RAM mode, armed for [mode], capture started. *)
Definition fresh_capture (mode : TriggerMode) : LogicAnalyzer :=
  startCapture env0 (setTrigger mode (setBufferMode env0 BUFFER_RAM LogicAnalyzer_new)).

(** The same after an earlier capture whose last sample was high. *)
Definition capture_after_high (mode : TriggerMode) : LogicAnalyzer :=
  let s := startCapture env0 (setBufferMode env0 BUFFER_RAM LogicAnalyzer_new) in
  let s := process (tickEnv 100 true) s in
  let s := stopCapture env0 s in
  startCapture env0 (setTrigger mode s).

(** Operations on the RAM ring: [addSample] in RAM mode and [clearBuffer]. *)
Inductive RamOp := RamRecord (e : Env) (v : bool) | RamClear.

Definition ram_step (s : LogicAnalyzer) (op : RamOp) : LogicAnalyzer :=
  match op with
  | RamRecord e v => addSample e v s
  | RamClear => clearBuffer s
  end.

Definition ram_run (ops : list RamOp) (s : LogicAnalyzer) : LogicAnalyzer :=
  fold_left ram_step ops s.

(** The RAM-mode ring invariant: indices inside the ring. *)
Definition ram_inv (s : LogicAnalyzer) : Prop :=
  bufferMode (logicConfig s) = BUFFER_RAM /\
  0 <= writeIndex s < BUFFER_SIZE /\ 0 <= readIndex s < BUFFER_SIZE.

(** Samples fed one at a time through [compressSample]. *)
Definition compressAll (samples : list Sample) (s : LogicAnalyzer) : LogicAnalyzer :=
  fold_left (fun st smp => compressSample smp st) samples s.

(** A reachable state in pure RLE mode with an empty compression buffer. *)
Definition rle_state : LogicAnalyzer :=
  enableCompression env0 COMPRESS_RLE
    (enableFlashBuffering env0 BUFFER_COMPRESSED FLASH_BUFFER_SIZE LogicAnalyzer_new).

(** [false]*5 then [true]*3, at timestamps 0..7. *)
Definition rle_input : list Sample :=
  map (fun i => mkSample (Z.of_nat i) (Nat.leb 5 i)) (seq 0 8).

(** The record [compressRunLength(data, timestamp, 1)] stores. *)
Definition rle_record (x : Sample) : CompressedSample :=
  mkCompressed (timestamp x) 1 (data x) COMPRESS_RLE.

(** The staged samples of the flash chunk. *)
Definition staged (s : LogicAnalyzer) : list Sample :=
  match flashWriteBuffer s with Some l => l | None => [] end.


(** The members that decide which branch of [process] a tick takes. *)
Definition logic_view (s : LogicAnalyzer) : bool * Z * Z * TriggerMode * bool :=
  (capturing s, lastSampleTime s, sampleInterval s, triggerMode s, triggerArmed s).

(** A capture started in [BUFFER_FLASH] mode with [maxFlashSamples] 0 (the
    [flash_samples] request parameter is only bounded from above). *)
Definition flash_zero_capture (mode : TriggerMode) : LogicAnalyzer :=
  startCapture env0 (setTrigger mode (enableFlashBuffering env0 BUFFER_FLASH 0 LogicAnalyzer_new)).

(** A UART-log store in RAM mode with capacity [cap] holding [n] entries,
    reached through [initFlashStorage] failing, [setUartBufferSize] and
    [addUartEntry]. *)
Definition uart_ram_store (cap : Z) (n : nat) : LogicAnalyzer :=
  let s := setUartBufferSize env_fs_fail cap (initFlashStorage env_fs_fail LogicAnalyzer_new) in
  fold_left (fun st _ => addUartEntry env_fs_fail "x" true st) (seq 0 n) s.

(** ** Further members: compression statistics, clearing, streaming stop *)

(** [sizeof(CompressedSample)]: a [uint32_t], a [uint16_t], a [bool] and a
    [uint8_t]. *)
Definition sizeof_CompressedSample : Z := 8.

(** [getCompressionRatio], in [uint32_t] arithmetic. *)
Definition getCompressionRatio (s : LogicAnalyzer) : Z :=
  if flashSamplesWritten s =? 0 then 0 else
  let originalSize := u32 (flashSamplesWritten s * sizeof_Sample) in
  let compressedSize := u32 (compressedCount s * sizeof_CompressedSample) in
  if compressedSize =? 0 then 0
  else u32 (u32 (originalSize - compressedSize) * 100) / originalSize.



Definition stopStreaming (e : Env) (s : LogicAnalyzer) : LogicAnalyzer :=
  if streamingActive s then
    let s := flushFlashBuffer e s in
    let s := s{{ flashDataFile := false; streamingActive := false }} in
    addLogEntry (now_ms e)
      ("Streaming capture stopped - " +s String_of_Z (streamingCount s) +s " samples captured") s
  else s.

(** [clearFlashUartLogs]: [LittleFS.exists] holds once a line has been
    appended to the log file, and [LittleFS.remove] succeeds iff [fs_ok]. *)
Definition clearFlashUartLogs (e : Env) (s : LogicAnalyzer) : LogicAnalyzer :=
  let file_exists := match uartLogFile s with [] => false | _ :: _ => true end in
  if useFlashStorage s && file_exists then
    if fs_ok e then
      addLogEntry (now_ms e) ("Flash UART logs cleared: " +s "/uart_logs.txt")
        (s{{ uartLogFile := [] }})
    else addLogEntry (now_ms e) "Failed to clear Flash UART logs" s
  else s.

Definition clearUartLogs (e : Env) (s : LogicAnalyzer) : LogicAnalyzer :=
  let s := if useFlashStorage s then clearFlashUartLogs e s else s{{ uartLogBuffer := [] }} in
  addLogEntry (now_ms e) "UART logs cleared" s.

(** ** More drivers *)

(** The byte classes of the receive loop of [processUartData]. *)
Definition is_printable (c : ascii) : bool :=
  let n := Z.of_nat (nat_of_ascii c) in (32 <=? n) && (n <=? 126).

Definition is_eol (c : ascii) : bool :=
  let n := Z.of_nat (nat_of_ascii c) in (n =? 10) || (n =? 13).

(** The members the UART monitor never writes: capture, ring, flash,
    compression and streaming state, and the configuration. *)
Definition capture_view (s : LogicAnalyzer) :=
  (logic_view s, buffer s, writeIndex s, readIndex s, lastState s, sampleRate s, gpio1Pin s,
   logicConfig s, dualModeActive s,
   (flashDataFile s, flashFileData s, flashSamplesWritten s, flashWritePosition s,
    flashStorageActive s, flashWriteBuffer s, bufferPosition s),
   (compressedBuffer s, lastTimestamp s, lastData s, runLength s, streamingActive s,
    streamingCount s)).

(** The half-duplex state and UART configuration. *)
Definition duplex_view (s : LogicAnalyzer) :=
  (halfDuplexTxMode s, halfDuplexBusy s, halfDuplexTxQueue s, halfDuplexTxTimeout s,
   uartConfig s, uartSerial s, uartMonitoringEnabled s).

(** The logs and the members that decide where a UART entry goes. *)
Definition uart_log_view (s : LogicAnalyzer) :=
  (serialLogBuffer s, uartLogBuffer s, uartLogFile s, useFlashStorage s, maxUartEntries s).

(** The members [isBufferFull] reads outside flash modes, and [capturing]. *)
Definition ring_view (s : LogicAnalyzer) :=
  (logicConfig s, writeIndex s, readIndex s, capturing s).

(** Successive calls of [process], one per [loop()] iteration. *)
Definition run_ticks (ticks : list Env) (s : LogicAnalyzer) : LogicAnalyzer :=
  fold_left (fun t e => process e t) ticks s.

(** Successive [addUartEntry] calls. *)
Definition addUartEntries (ops : list (Env * string * bool)) (s : LogicAnalyzer) : LogicAnalyzer :=
  fold_left (fun t '(e, d, r) => addUartEntry e d r t) ops s.

(** The samples [addSample] builds for a list of (call, level) pairs. *)
Definition recorded (recs : list (Env * bool)) : list Sample :=
  map (fun '(e, v) => mkSample (u32 (sample_us e)) v) recs.

(** [cb_ok t u]: going from [t] to [u] keeps at most [COMPRESSED_CAPACITY]
    records, and a full buffer is left as it was. *)
Definition cb_ok (t u : LogicAnalyzer) : Prop :=
  (compressedCount t <= COMPRESSED_CAPACITY -> compressedCount u <= COMPRESSED_CAPACITY) /\
  (compressedCount t = COMPRESSED_CAPACITY -> compressedBuffer u = compressedBuffer t).

(** What [compressSample] reads and writes in [COMPRESS_HYBRID]. *)
Definition comp_view (s : LogicAnalyzer) :=
  (compression (logicConfig s), compressedBuffer s, lastTimestamp s, lastData s, runLength s).

(** A sequence of [addLogEntry] calls, each with its [millis()]. *)
Definition addLogEntries (msgs : list (Z * string)) (s : LogicAnalyzer) : LogicAnalyzer :=
  fold_left (fun t '(now, m) => addLogEntry now m t) msgs s.

(** The last [MAX_LOG_ENTRIES] elements of a list. *)
Definition log_window (l : list string) : list string :=
  skipn (List.length l - MAX_LOG_ENTRIES) l.

Definition uartEntry (e : Env) (d : string) (isRx : bool) : string :=
  String_of_Z (now_ms e) +s ": [UART " +s (if isRx then "RX" else "TX") +s "] " +s d.

Definition RamRecords (recs : list (Env * bool)) : list RamOp :=
  map (fun '(e, v) => RamRecord e v) recs.

(** A reachable [COMPRESS_HYBRID] state: compressed buffering enabled, then
    one low sample, which opens a run of length 1. *)
Definition hybrid_state : LogicAnalyzer :=
  compressSample (mkSample 0 false)
    (enableCompression env0 COMPRESS_HYBRID
       (enableFlashBuffering env0 BUFFER_COMPRESSED FLASH_BUFFER_SIZE LogicAnalyzer_new)).

(** A received line and its CR/LF terminator. *)
Definition uart_line : list ascii := list_ascii_of_string "hello".

Definition crlf : list ascii := ["013"%char; "010"%char].

(** * Properties *)

(** Reduce field updates and projections of the records, nothing else. *)
Ltac rsimpl :=
  cbn [apply_update constant isFlashBacked BufferMode_eqb buffer writeIndex readIndex capturing sampleRate gpio1Pin triggerMode lastState triggerArmed lastSampleTime sampleInterval serialLogBuffer uartLogBuffer logicConfig uartConfig uartSerial uartMonitoringEnabled uartRxBuffer lastUartActivity uartBytesReceived uartBytesSent halfDuplexTxMode halfDuplexTxTimeout halfDuplexTxQueue halfDuplexBusy dualModeActive maxUartEntries useFlashStorage uartLogFile flashDataFile flashFileData flashSamplesWritten flashWritePosition flashStorageActive compressedBuffer lastTimestamp lastData runLength streamingActive streamingCount flashWriteBuffer bufferPosition lc_sampleRate lc_gpioPin lc_triggerMode lc_bufferSize lc_preTriggerPercent bufferMode compression streamingMode maxFlashSamples rxPin txPin duplexMode timestamp data c_timestamp c_count c_data c_type now_us sample_us now_ms pin rx_avail fs_ok fs_format_ok fs_total fs_used fs_write preferences]; unfold constant; cbn [apply_update constant isFlashBacked BufferMode_eqb buffer writeIndex readIndex capturing sampleRate gpio1Pin triggerMode lastState triggerArmed lastSampleTime sampleInterval serialLogBuffer uartLogBuffer logicConfig uartConfig uartSerial uartMonitoringEnabled uartRxBuffer lastUartActivity uartBytesReceived uartBytesSent halfDuplexTxMode halfDuplexTxTimeout halfDuplexTxQueue halfDuplexBusy dualModeActive maxUartEntries useFlashStorage uartLogFile flashDataFile flashFileData flashSamplesWritten flashWritePosition flashStorageActive compressedBuffer lastTimestamp lastData runLength streamingActive streamingCount flashWriteBuffer bufferPosition lc_sampleRate lc_gpioPin lc_triggerMode lc_bufferSize lc_preTriggerPercent bufferMode compression streamingMode maxFlashSamples rxPin txPin duplexMode timestamp data c_timestamp c_count c_data c_type now_us sample_us now_ms pin rx_avail fs_ok fs_format_ok fs_total fs_used fs_write preferences].
Tactic Notation "rsimpl" "in" "*" :=
  cbn [apply_update constant isFlashBacked BufferMode_eqb buffer writeIndex readIndex capturing sampleRate gpio1Pin triggerMode lastState triggerArmed lastSampleTime sampleInterval serialLogBuffer uartLogBuffer logicConfig uartConfig uartSerial uartMonitoringEnabled uartRxBuffer lastUartActivity uartBytesReceived uartBytesSent halfDuplexTxMode halfDuplexTxTimeout halfDuplexTxQueue halfDuplexBusy dualModeActive maxUartEntries useFlashStorage uartLogFile flashDataFile flashFileData flashSamplesWritten flashWritePosition flashStorageActive compressedBuffer lastTimestamp lastData runLength streamingActive streamingCount flashWriteBuffer bufferPosition lc_sampleRate lc_gpioPin lc_triggerMode lc_bufferSize lc_preTriggerPercent bufferMode compression streamingMode maxFlashSamples rxPin txPin duplexMode timestamp data c_timestamp c_count c_data c_type now_us sample_us now_ms pin rx_avail fs_ok fs_format_ok fs_total fs_used fs_write preferences] in *; unfold constant in *; cbn [apply_update constant isFlashBacked BufferMode_eqb buffer writeIndex readIndex capturing sampleRate gpio1Pin triggerMode lastState triggerArmed lastSampleTime sampleInterval serialLogBuffer uartLogBuffer logicConfig uartConfig uartSerial uartMonitoringEnabled uartRxBuffer lastUartActivity uartBytesReceived uartBytesSent halfDuplexTxMode halfDuplexTxTimeout halfDuplexTxQueue halfDuplexBusy dualModeActive maxUartEntries useFlashStorage uartLogFile flashDataFile flashFileData flashSamplesWritten flashWritePosition flashStorageActive compressedBuffer lastTimestamp lastData runLength streamingActive streamingCount flashWriteBuffer bufferPosition lc_sampleRate lc_gpioPin lc_triggerMode lc_bufferSize lc_preTriggerPercent bufferMode compression streamingMode maxFlashSamples rxPin txPin duplexMode timestamp data c_timestamp c_count c_data c_type now_us sample_us now_ms pin rx_avail fs_ok fs_format_ok fs_total fs_used fs_write preferences] in *.

Lemma addLogEntry_last (now : Z) (m : string) (s : LogicAnalyzer) :
  last (serialLogBuffer (addLogEntry now m s)) EmptyString = logLine now m.
Proof.
  destruct s as [? ? ? ? ? ? ? ? ? ? ? log]. unfold addLogEntry; rsimpl.
  destruct log as [|h t]; cbn [app List.length].
  - reflexivity.
  - destruct (Nat.ltb MAX_LOG_ENTRIES _); cbn [List.tl]; [|rewrite app_comm_cons]; apply last_last.
Qed.

(** Split a conjunction into its conjuncts, and nothing else. *)
Ltac splits := repeat match goal with |- _ /\ _ => split end.

(** ** Trigger engine *)

Lemma checkTrigger_spec (s : LogicAnalyzer) (c : bool) :
  checkTrigger s c = spec_evaluate (triggerMode s) (lastState s) c.
Proof. unfold checkTrigger, spec_evaluate; destruct (triggerMode s); reflexivity. Qed.

(** A normal-path tick while waiting for the trigger only evaluates the
    trigger and records the pin level in [lastState]. *)


(** ** RAM ring buffer *)

Lemma usage_ram_bound (s : LogicAnalyzer) :
  ram_inv s -> 0 <= getBufferUsage s <= BUFFER_SIZE - 1.
Proof.
  intros (Hm & Hw & Hr). unfold getBufferUsage. rewrite Hm. cbn [isFlashBacked].
  destruct (Z.leb_spec (readIndex s) (writeIndex s)); unfold BUFFER_SIZE in *; lia.
Qed.

Lemma ram_step_inv (s : LogicAnalyzer) (op : RamOp) : ram_inv s -> ram_inv (ram_step s op).
Proof.
  destruct s; intros (Hm & Hw & Hr); rsimpl in *.
  destruct op as [e v|]; unfold ram_inv, ram_step.
  - unfold addSample; rsimpl; rewrite Hm; rsimpl.
    repeat split; try assumption; try lia; apply Z.mod_pos_bound; reflexivity.
  - unfold clearBuffer; rsimpl; rewrite Hm; rsimpl.
    repeat split; try assumption; unfold BUFFER_SIZE; lia.
Qed.

Lemma ram_run_inv (ops : list RamOp) :
  forall s, ram_inv s -> ram_inv (ram_run ops s).
Proof.
  induction ops as [|op ops IH]; intros s H; [exact H|].
  cbn [ram_run fold_left]. apply IH, ram_step_inv, H.
Qed.

Lemma ram_record_step (s : LogicAnalyzer) (e : Env) (v : bool) :
  ram_inv s -> writeIndex s + 1 < BUFFER_SIZE ->
  ram_inv (ram_step s (RamRecord e v)) /\
  readIndex (ram_step s (RamRecord e v)) = readIndex s /\
  writeIndex (ram_step s (RamRecord e v)) = writeIndex s + 1.
Proof.
  intros Hi Hlen. assert (Hs := ram_step_inv s (RamRecord e v) Hi).
  destruct s; destruct Hi as (Hm & Hw & _).
  unfold ram_step, addSample in Hs |- *; rsimpl in *.
  rewrite Hm in Hs |- *. rsimpl in *.
  split; [exact Hs|]. split; [reflexivity|].
  apply Z.mod_small. unfold BUFFER_SIZE in *; lia.
Qed.

Lemma ram_records_count (recs : list (Env * bool)) :
  forall s, ram_inv s -> readIndex s = 0 ->
  writeIndex s + Z.of_nat (List.length recs) < BUFFER_SIZE ->
  ram_inv (ram_run (map (fun '(e, v) => RamRecord e v) recs) s) /\
  readIndex (ram_run (map (fun '(e, v) => RamRecord e v) recs) s) = 0 /\
  writeIndex (ram_run (map (fun '(e, v) => RamRecord e v) recs) s) =
    writeIndex s + Z.of_nat (List.length recs).
Proof.
  induction recs as [|[e v] recs IH]; intros s Hi Hr Hlen.
  - cbn. repeat split; try apply Hi; try assumption; lia.
  - cbn [map]. unfold ram_run; cbn [fold_left]; fold (ram_run (map (fun '(e, v) => RamRecord e v) recs)).
    cbn [List.length] in Hlen.
    destruct (ram_record_step s e v Hi) as (H1 & H2 & H3); [lia|].
    destruct (IH _ H1) as (G1 & G2 & G3); [congruence | lia |].
    repeat split; try apply G1; try assumption. unfold ram_run in G3. rewrite G3, H3. cbn [List.length]. lia.
Qed.

Lemma ram_clear_step (s : LogicAnalyzer) :
  ram_inv s ->
  ram_inv (ram_step s RamClear) /\ readIndex (ram_step s RamClear) = 0 /\
  writeIndex (ram_step s RamClear) = 0.
Proof.
  intros Hi. assert (Hs := ram_step_inv s RamClear Hi).
  destruct s; destruct Hi as (Hm & _ & _).
  unfold ram_step, clearBuffer in Hs |- *; rsimpl in *.
  rewrite Hm in Hs |- *. rsimpl in *. auto.
Qed.

(** Claim C2: in RAM buffer mode, starting from any state whose ring indices
    lie inside the ring, every sequence of [addSample]/[clearBuffer] calls
    keeps [getBufferUsage] at most [BUFFER_SIZE - 1]; and after a clear
    followed by exactly [n < BUFFER_SIZE] records the usage is [n]. *)
Theorem C2_ram_usage (s : LogicAnalyzer) (Hs : ram_inv s) :
  (forall ops, getBufferUsage (ram_run ops s) <= BUFFER_SIZE - 1) /\
  (forall ops recs, Z.of_nat (List.length recs) < BUFFER_SIZE ->
     getBufferUsage
       (ram_run (ops ++ RamClear :: map (fun '(e, v) => RamRecord e v) recs) s)
     = Z.of_nat (List.length recs)).
Proof.
  split.
  - intros ops. apply usage_ram_bound, ram_run_inv, Hs.
  - intros ops recs Hn. unfold ram_run. rewrite fold_left_app. cbn [fold_left].
    assert (H1 := ram_run_inv ops s Hs). unfold ram_run in H1.
    destruct (ram_clear_step _ H1) as (C1 & C2 & C3).
    destruct (ram_records_count recs _ C1 C2) as (R1 & R2 & R3); [rewrite C3; lia|].
    unfold ram_run in R1, R2, R3.
    destruct R1 as (Rm & _ & _).
    unfold getBufferUsage. rewrite Rm. cbn [isFlashBacked]. rewrite R2, R3, C3.
    destruct (Z.leb_spec 0 (0 + Z.of_nat (List.length recs))); lia.
Qed.

Lemma C2_ram_usage_witness :
  ram_inv (setBufferMode env0 BUFFER_RAM LogicAnalyzer_new) /\
  getBufferUsage
    (ram_run ([RamRecord env0 true] ++ RamClear :: map (fun '(e, v) => RamRecord e v)
                [(env0, true); (env0, false)])
       (setBufferMode env0 BUFFER_RAM LogicAnalyzer_new)) = 2.
Proof.
  assert (H : ram_inv (setBufferMode env0 BUFFER_RAM LogicAnalyzer_new))
    by (vm_compute; repeat split; discriminate).
  split; [exact H|].
  apply (proj2 (C2_ram_usage _ H) [RamRecord env0 true] [(env0, true); (env0, false)]).
  vm_compute. reflexivity.
Defined.

(** Claim C3 (as the code is): under pure RLE, [compressSample] stores one
    record per sample, with count 1, the sample's value and its timestamp,
    while the compressed buffer holds fewer than 1000 records; runs of equal
    values are not merged.  Fed [false]*5 ++ [true]*3 into an empty buffer it
    therefore produces eight records of count 1. *)
Theorem C3_rle_one_record_per_sample (samples : list Sample) :
  forall (s : LogicAnalyzer) (l : list CompressedSample),
  compression (logicConfig s) = COMPRESS_RLE ->
  compressedBuffer s = Some l ->
  (List.length l + List.length samples <= 1000)%nat ->
  compressedBuffer (compressAll samples s) = Some (l ++ map rle_record samples).
Proof.
  induction samples as [|x r IH]; intros s l Hc Hb Hn.
  - cbn. rewrite app_nil_r. exact Hb.
  - cbn [List.length] in Hn. unfold compressAll. cbn [fold_left]. fold (compressAll r).
    replace (l ++ map rle_record (x :: r)) with ((l ++ [rle_record x]) ++ map rle_record r)
      by (rewrite <- app_assoc; reflexivity).
    destruct s; cbn in Hc, Hb; subst compressedBuffer0.
    apply IH.
    + unfold compressSample; rsimpl. rewrite Hc.
      unfold compressRunLength, pushCompressed; rsimpl.
      destruct (Z.of_nat (List.length l) <? COMPRESSED_CAPACITY); exact Hc.
    + unfold compressSample; rsimpl. rewrite Hc.
      unfold compressRunLength, pushCompressed; rsimpl.
      destruct (Z.ltb_spec (Z.of_nat (List.length l)) COMPRESSED_CAPACITY) as [_|H];
        [reflexivity | unfold COMPRESSED_CAPACITY in H; lia].
    + rewrite length_app. cbn [List.length]. lia.
Qed.

Lemma C3_rle_one_record_per_sample_witness :
  compressedBuffer (compressAll rle_input rle_state) = Some (map rle_record rle_input).
Proof.
  apply (C3_rle_one_record_per_sample rle_input rle_state []);
    [vm_compute; reflexivity | vm_compute; reflexivity | cbn; lia].
Defined.

(** Claim C3, counterexample: [false]*5 ++ [true]*3 under pure RLE yields
    eight records of count 1, not two records of counts 5 and 3. *)
Lemma C3_counterexample :
  option_map (@List.length CompressedSample) (compressedBuffer (compressAll rle_input rle_state))
    = Some 8%nat /\
  option_map (map c_count) (compressedBuffer (compressAll rle_input rle_state))
    = Some [1; 1; 1; 1; 1; 1; 1; 1].
Proof. split; vm_compute; reflexivity. Qed.







(** Claim C7 (as the code is): with RAM storage of the UART log,
    [addUartEntry] appends the new entry and compacts only when the store
    then holds more than [maxUartEntries] entries; compaction removes the
    [maxUartEntries * 0.2] oldest entries in one batch and keeps the rest in
    arrival order.  With capacity 1000 nothing is removed up to 1000 entries,
    and the 1001st entry brings the store to 801. *)
Theorem C7_uart_compaction (e : Env) (d : string) (isRx : bool) (s : LogicAnalyzer)
  (Hram : useFlashStorage s = false) :
  let entry := String_of_Z (now_ms e) +s ": [UART " +s (if isRx then "RX" else "TX")
               +s "] " +s d in
  let l := uartLogBuffer s ++ [entry] in
  uartLogBuffer (addUartEntry e d isRx s) =
    if maxUartEntries s <? Z.of_nat (List.length l)
    then skipn (Z.to_nat (2 * maxUartEntries s / 10)) l
    else l.
Proof.
  destruct s; cbn in Hram; subst useFlashStorage0. intros entry l. subst entry l.
  unfold addUartEntry; rsimpl. set (l := uartLogBuffer0 ++ [_]).
  destruct (Z.ltb_spec maxUartEntries0 (Z.of_nat (List.length l))) as [H|H];
    unfold addLogEntry; rsimpl; [|reflexivity].
  unfold compactUartLogs; rsimpl.
  destruct (Z.leb_spec (9 * maxUartEntries0) (10 * Z.of_nat (List.length l))); [|lia].
  unfold addLogEntry; rsimpl. reflexivity.
Qed.

Lemma C7_uart_compaction_witness :
  List.length (uartLogBuffer (addUartEntry env_fs_fail "x" true (uart_ram_store 1000 1000)))
    = 801%nat.
Proof.
  rewrite (C7_uart_compaction env_fs_fail "x" true (uart_ram_store 1000 1000));
    [vm_compute; reflexivity | vm_compute; reflexivity].
Defined.

(** Claim C7, counterexample: with capacity 1000, a store that has reached
    900 entries through [addUartEntry] holds all 900 (no compaction at 90%);
    compaction first happens at 1001 entries and leaves 801, not 700. *)
Lemma C7_counterexample :
  List.length (uartLogBuffer (uart_ram_store 1000 900)) = 900%nat /\
  List.length (uartLogBuffer (uart_ram_store 1000 1001)) = 801%nat.
Proof. split; vm_compute; reflexivity. Qed.

(** Claim C8: [sendHalfDuplexCommand] returns true exactly when the UART is
    in half-duplex mode and not busy, so a call while busy or outside
    half-duplex mode returns false.  The pending command is a single slot:
    afterwards it holds either its previous contents (not in half-duplex
    mode) or exactly the new command with its CR LF ending, overwriting
    whatever was pending. *)
Theorem C8_half_duplex_busy_rejects (e : Env) (command : string) (s : LogicAnalyzer) :
  fst (sendHalfDuplexCommand e command s) = isHalfDuplex s && negb (halfDuplexBusy s) /\
  halfDuplexTxQueue (snd (sendHalfDuplexCommand e command s)) =
    if isHalfDuplex s then command +s String "013" (String "010" EmptyString)
    else halfDuplexTxQueue s.
Proof.
  destruct s. unfold sendHalfDuplexCommand, isHalfDuplex; rsimpl.
  destruct (duplexMode uartConfig0); cbn [negb andb fst snd];
    [|destruct halfDuplexBusy0]; unfold addLogEntry; rsimpl; split; reflexivity.
Qed.

(** Claim C9: when the UART RX pin differs from the logic GPIO pin,
    [enableDualMode(true)] leaves dual mode inactive, changes nothing that
    [getDualModeStatus] reports except keeping [dual_mode_active] false, and
    its last log entry names both pins; and [enableDualMode(true)] activates
    dual mode exactly when the two pins are equal. *)
Theorem C9_dual_mode_fails_closed (e : Env) (s : LogicAnalyzer)
  (Hpins : rxPin (uartConfig s) <> lc_gpioPin (logicConfig s)) :
  dualModeActive (enableDualMode e true s) = false /\
  getDualModeStatus (enableDualMode e true s) =
    {| dual_mode_active := false; compatible := false;
       uart_pin := rxPin (uartConfig s); logic_pin := lc_gpioPin (logicConfig s);
       uart_monitoring := uartMonitoringEnabled s; logic_capturing := capturing s;
       logic_samples := getBufferUsage s |} /\
  last (serialLogBuffer (enableDualMode e true s)) EmptyString =
    logLine (now_ms e) ("Dual-mode failed: Pin conflict - UART on GPIO"
      +s String_of_Z (rxPin (uartConfig s)) +s ", Logic on GPIO"
      +s String_of_Z (lc_gpioPin (logicConfig s))) /\
  (forall t : LogicAnalyzer,
     dualModeActive (enableDualMode e true t) = true <->
     rxPin (uartConfig t) = lc_gpioPin (logicConfig t)).
Proof.
  assert (Hc : isDualModeCompatible s = false) by (apply Z.eqb_neq, Hpins).
  split; [|split; [|split]].
  - unfold enableDualMode. rewrite Hc. cbn [andb negb].
    destruct s; unfold addLogEntry; rsimpl; reflexivity.
  - unfold enableDualMode. rewrite Hc. cbn [andb negb].
    destruct s; unfold getDualModeStatus, isDualModeCompatible, addLogEntry,
      getBufferUsage in *; rsimpl in *; rewrite Hc; reflexivity.
  - unfold enableDualMode. rewrite Hc. cbn [andb negb]. apply addLogEntry_last.
  - intros t. unfold enableDualMode.
    destruct (isDualModeCompatible t) eqn:Ht; cbn [andb negb];
      unfold isDualModeCompatible in Ht; destruct t; unfold addLogEntry; rsimpl in *.
    + split; [intros _; apply Z.eqb_eq, Ht | reflexivity].
    + split; [discriminate | intros H; apply Z.eqb_neq in Ht; contradiction].
Qed.

Lemma C9_dual_mode_fails_closed_witness :
  dualModeActive
    (enableDualMode env0 true (configureLogic env0 1000 2 TRIGGER_NONE 1024 10 LogicAnalyzer_new))
  = false.
Proof.
  apply (C9_dual_mode_fails_closed env0
           (configureLogic env0 1000 2 TRIGGER_NONE 1024 10 LogicAnalyzer_new)).
  vm_compute. discriminate.
Defined.

(** ** Data export *)

Lemma ret_ro {A} (a : A) : ReadOnly (st_ret a).
Proof. intros s; reflexivity. Qed.

Lemma gets_ro {A} (f : LogicAnalyzer -> A) : ReadOnly (gets f).
Proof. intros s; reflexivity. Qed.

Lemma bind_ro {A B} (m : St A) (k : A -> St B) :
  ReadOnly m -> (forall a, ReadOnly (k a)) -> ReadOnly (st_bind m k).
Proof.
  intros Hm Hk s. unfold st_bind. specialize (Hm s). destruct (m s) as [a s'].
  cbn in Hm; subst s'. apply Hk.
Qed.

Create HintDb readonly.
#[local] Hint Resolve ret_ro gets_ro : readonly.

Ltac ro := repeat (apply bind_ro; [auto with readonly | intro]); auto with readonly.

Lemma jsonSamples_ro (n : nat) : forall index, ReadOnly (jsonSamples n index).
Proof. induction n as [|n IH]; intros index; cbn [jsonSamples]; ro. Qed.

Lemma csvRows_ro (n : nat) : forall i index, ReadOnly (csvRows i n index).
Proof. induction n as [|n IH]; intros i index; cbn [csvRows]; ro. Qed.

#[local] Hint Resolve jsonSamples_ro csvRows_ro : readonly.

(** Claim C10: [getDataAsJSON] and [getDataAsCSV] leave the whole object
    unchanged (ring contents, [writeIndex], [readIndex] and every other
    member), so [getBufferUsage] is the same afterwards and exporting again
    gives the same document (for the CSV, at the same [millis()] reading). *)
Theorem C10_export_read_only (ms : Z) (s : LogicAnalyzer) :
  snd (getDataAsJSON s) = s /\ snd (getDataAsCSV ms s) = s /\
  getBufferUsage (snd (getDataAsJSON s)) = getBufferUsage s /\
  getBufferUsage (snd (getDataAsCSV ms s)) = getBufferUsage s /\
  fst (getDataAsJSON (snd (getDataAsJSON s))) = fst (getDataAsJSON s) /\
  fst (getDataAsCSV ms (snd (getDataAsCSV ms s))) = fst (getDataAsCSV ms s).
Proof.
  assert (Hj : ReadOnly getDataAsJSON) by (unfold getDataAsJSON; ro).
  assert (Hc : ReadOnly (getDataAsCSV ms)) by (unfold getDataAsCSV; ro).
  rewrite (Hj s), (Hc s). repeat split; reflexivity.
Qed.

(** ** Buffer-full handling *)

(** Rewriting [logic_view] through the UART and log code: a record update
    that does not touch the five members is dropped, a conditional is split,
    and [rl] rewrites calls whose lemma is already known. *)
Ltac lv_go rl :=
  repeat (cbv zeta;
          first
            [ rl
            | match goal with
              | |- context [logic_view (apply_update ?u ?t)] =>
                  let H := fresh in
                  assert (H : logic_view (apply_update u t) = logic_view t)
                    by (destruct t; reflexivity);
                  rewrite H; clear H
              end
            | match goal with
              | |- context [logic_view (if ?c then _ else _)] => destruct c
              end ]);
  try reflexivity.

Lemma addLogEntry_lv (now : Z) (m : string) (s : LogicAnalyzer) :
  logic_view (addLogEntry now m s) = logic_view s.
Proof. destruct s; reflexivity. Qed.

Ltac lv_r0 :=
  idtac;
  match goal with
  | |- context [logic_view (addLogEntry ?a ?b ?c)] => rewrite (addLogEntry_lv a b c)
  end.

Lemma compactUartLogs_lv (now : Z) (s : LogicAnalyzer) :
  logic_view (compactUartLogs now s) = logic_view s.
Proof. unfold compactUartLogs. lv_go lv_r0. Qed.

Ltac lv_r1 :=
  idtac;
  first
    [ lv_r0
    | match goal with
      | |- context [logic_view (compactUartLogs ?a ?b)] => rewrite (compactUartLogs_lv a b)
      end ].

Lemma addUartEntry_lv (e : Env) (d : string) (isRx : bool) (s : LogicAnalyzer) :
  logic_view (addUartEntry e d isRx s) = logic_view s.
Proof. unfold addUartEntry. lv_go lv_r1. Qed.

Ltac lv_r2 :=
  idtac;
  first
    [ lv_r1
    | match goal with
      | |- context [logic_view (addUartEntry ?a ?b ?c ?d)] => rewrite (addUartEntry_lv a b c d)
      end ].

Lemma uartFeedByte_lv (e : Env) (dual : bool) (s : LogicAnalyzer) (c : ascii) :
  logic_view (uartFeedByte e dual s c) = logic_view s.
Proof. unfold uartFeedByte. lv_go lv_r2. Qed.

Lemma uartTimeout_lv (e : Env) (suffix : string) (s : LogicAnalyzer) :
  logic_view (uartTimeout e suffix s) = logic_view s.
Proof. unfold uartTimeout. lv_go lv_r2. Qed.

Lemma switchToTxMode_lv (e : Env) (s : LogicAnalyzer) :
  logic_view (switchToTxMode e s) = logic_view s.
Proof. unfold switchToTxMode. lv_go lv_r2. Qed.

Lemma switchToRxMode_lv (e : Env) (s : LogicAnalyzer) :
  logic_view (switchToRxMode e s) = logic_view s.
Proof. unfold switchToRxMode. lv_go lv_r2. Qed.

Lemma feedAll_lv (e : Env) (dual : bool) (bytes : list ascii) :
  forall s, logic_view (fold_left (uartFeedByte e dual) bytes s) = logic_view s.
Proof.
  induction bytes as [|c r IH]; intros s; [reflexivity|].
  cbn [fold_left]. rewrite IH. apply uartFeedByte_lv.
Qed.

Ltac lv_r3 :=
  idtac;
  first
    [ lv_r2
    | match goal with
      | |- context [logic_view (uartTimeout ?a ?b ?c)] => rewrite (uartTimeout_lv a b c)
      | |- context [logic_view (switchToTxMode ?a ?b)] => rewrite (switchToTxMode_lv a b)
      | |- context [logic_view (switchToRxMode ?a ?b)] => rewrite (switchToRxMode_lv a b)
      | |- context [logic_view (fold_left (uartFeedByte ?a ?b) ?c ?d)] =>
          rewrite (feedAll_lv a b c d)
      end ].

Lemma processHalfDuplexQueue_lv (e : Env) (s : LogicAnalyzer) :
  logic_view (processHalfDuplexQueue e s) = logic_view s.
Proof. unfold processHalfDuplexQueue. lv_go lv_r3. Qed.

Ltac lv_r4 :=
  idtac;
  first
    [ lv_r3
    | match goal with
      | |- context [logic_view (processHalfDuplexQueue ?a ?b)] =>
          rewrite (processHalfDuplexQueue_lv a b)
      end ].

Lemma processUartData_lv (e : Env) (s : LogicAnalyzer) :
  logic_view (processUartData e s) = logic_view s.
Proof. unfold processUartData. lv_go lv_r4. Qed.

Lemma addLogEntry_shape (now : Z) (m : string) (s : LogicAnalyzer) :
  exists pre, serialLogBuffer (addLogEntry now m s) = pre ++ [logLine now m] /\
    (MAX_LOG_ENTRIES < List.length (serialLogBuffer s ++ [logLine now m]) ->
     serialLogBuffer s = [] \/ exists h, serialLogBuffer s = h :: pre)%nat /\
    (List.length (serialLogBuffer s ++ [logLine now m]) <= MAX_LOG_ENTRIES ->
     pre = serialLogBuffer s)%nat.
Proof.
  destruct s as [? ? ? ? ? ? ? ? ? ? ? log]. unfold addLogEntry; rsimpl.
  destruct (Nat.ltb_spec MAX_LOG_ENTRIES (List.length (log ++ [logLine now m]))) as [H|H].
  - destruct log as [|h t].
    + cbn in H. unfold MAX_LOG_ENTRIES in H. lia.
    + exists t. split; [reflexivity|]. split; [intros _; right; exists h; reflexivity | lia].
  - exists log. split; [reflexivity|]. split; [lia | reflexivity].
Qed.

(** An entry logged just before another one is still in the log. *)
Lemma addLogEntry_twice_In (n n' : Z) (m m' : string) (s : LogicAnalyzer) :
  In (logLine n m) (serialLogBuffer (addLogEntry n' m' (addLogEntry n m s))).
Proof.
  destruct (addLogEntry_shape n m s) as (p1 & E1 & _ & _).
  destruct (addLogEntry_shape n' m' (addLogEntry n m s)) as (p2 & E2 & A2 & B2).
  rewrite E2. apply in_or_app. left.
  rewrite E1 in A2, B2. rewrite length_app in A2, B2. cbn [List.length] in A2, B2.
  destruct (Nat.le_gt_cases (List.length (p1 ++ [logLine n m]) + 1) MAX_LOG_ENTRIES) as [L|L].
  - rewrite (B2 L). apply in_or_app. right. left. reflexivity.
  - destruct (A2 L) as [Hn|(h & Hh)].
    + destruct p1; discriminate.
    + rewrite length_app in L. cbn [List.length] in L.
      destruct p1 as [|x p1].
      * unfold MAX_LOG_ENTRIES in L. cbn in L. lia.
      * cbn [app] in Hh. injection Hh as _ Hp. rewrite <- Hp.
        apply in_or_app. right. left. reflexivity.
Qed.

Lemma flushFlashBuffer_log (e : Env) (s : LogicAnalyzer) :
  serialLogBuffer (flushFlashBuffer e s) = serialLogBuffer s /\
  capturing (flushFlashBuffer e s) = capturing s /\
  isBufferFull (flushFlashBuffer e s) = isBufferFull s.
Proof.
  destruct s; unfold flushFlashBuffer; rsimpl.
  destruct flashWriteBuffer0; [|auto].
  destruct (bufferPosition0 =? 0); [auto|].
  destruct (flashDataFile0 || fs_ok e); rsimpl; auto.
Qed.

Lemma stopCapture_effect (e : Env) (s : LogicAnalyzer) :
  capturing (stopCapture e s) = false /\
  (exists m, serialLogBuffer (stopCapture e s) = serialLogBuffer (addLogEntry (now_ms e) m s)) /\
  isBufferFull (stopCapture e s) = isBufferFull s.
Proof.
  destruct s. unfold stopCapture. cbv zeta.
  match goal with |- context [if ?c then flushFlashBuffer e _ else _] => destruct c end.
  - match goal with |- context [flushFlashBuffer e ?t] =>
      destruct (flushFlashBuffer_log e t) as (H1 & H2 & H3); rewrite H2, H3;
      split; [|split; [eexists; rewrite H1|]] end;
    unfold addLogEntry; rsimpl; reflexivity.
  - split; [|split; [eexists|]]; unfold addLogEntry; rsimpl; reflexivity.
Qed.

(** The dual-mode handler ends either with the buffer not full, or with
    capture off and its buffer-full line as the last log entry. *)
Lemma processDualModeData_full (e : Env) (c : bool) (s : LogicAnalyzer) :
  isBufferFull (processDualModeData e c s) = false \/
  (capturing (processDualModeData e c s) = false /\
   last (serialLogBuffer (processDualModeData e c s)) EmptyString =
     logLine (now_ms e) "Dual-mode Logic buffer full - stopping capture").
Proof.
  unfold processDualModeData. cbv zeta.
  match goal with |- context [if isBufferFull ?t then _ else _] =>
    destruct (isBufferFull t) eqn:Hf end.
  - right. split.
    + match goal with |- capturing (apply_update _ ?t) = _ => destruct t; reflexivity end.
    + match goal with |- context [apply_update _ (addLogEntry ?n ?m ?t)] =>
        rewrite <- (addLogEntry_last n m t); destruct (addLogEntry n m t); reflexivity end.
  - left. exact Hf.
Qed.

Lemma logLine_last_In (l : list string) (n : Z) (m : string) :
  last l EmptyString = logLine n m -> In (logLine n m) l.
Proof.
  intros H. destruct l as [|x l] using rev_ind.
  - cbn in H. unfold logLine in H. destruct (String_of_Z n); discriminate.
  - rewrite last_last in H. subst x. apply in_or_app. right. left. reflexivity.
Qed.

Ltac full_branch e :=
  match goal with |- context [if isBufferFull ?t then _ else _] =>
    destruct (isBufferFull t) eqn:Hf;
    [ right;
      destruct (stopCapture_effect e
                  (addLogEntry (now_ms e) "Buffer full - auto-stopping capture" t))
        as (-> & (m & ->) & _);
      split; [reflexivity | left; apply addLogEntry_twice_In]
    | left; exact Hf ]
  end.

(** Claim C4 (as the code is): in a processing tick that records a sample
    (capture active, sample interval elapsed, and either dual mode with UART
    monitoring on, or the trigger armed, or no trigger), the capture ends the
    tick either with the buffer not full, or stopped, with a buffer-full line
    in the log.  A tick that is still waiting for the trigger does not look
    at the buffer. *)
Theorem C4_full_stops_recording_tick (e : Env) (s : LogicAnalyzer)
  (Hcap : capturing s = true)
  (Hdue : (sampleInterval s <=? u32 (u32 (now_us e) - lastSampleTime s)) = true)
  (Hrec : dualModeActive s && uartMonitoringEnabled s = true \/
          TriggerMode_eqb (triggerMode s) TRIGGER_NONE = true \/ triggerArmed s = true) :
  isBufferFull (process e s) = false \/
  (capturing (process e s) = false /\
   (In (logLine (now_ms e) "Buffer full - auto-stopping capture") (serialLogBuffer (process e s)) \/
    In (logLine (now_ms e) "Dual-mode Logic buffer full - stopping capture")
       (serialLogBuffer (process e s)))).
Proof.
  unfold process. destruct (dualModeActive s && uartMonitoringEnabled s && capturing s) eqn:Hd.
  - cbv zeta. rewrite Hdue.
    destruct (processDualModeData_full e (pin e) s) as [H|[H1 H2]].
    + left. revert H; destruct (processDualModeData e (pin e) s); intros H; exact H.
    + right. revert H1 H2; destruct (processDualModeData e (pin e) s); intros H1 H2.
      split; [exact H1 | right; apply logLine_last_In, H2].
  - cbv zeta.
    set (s1 := if uartMonitoringEnabled s then processUartData e s else s).
    assert (Hv : logic_view s1 = logic_view s)
      by (unfold s1; destruct (uartMonitoringEnabled s); [apply processUartData_lv | reflexivity]).
    unfold logic_view in Hv. injection Hv as Hc1 Hl1 Hi1 Ht1 Ha1.
    rewrite Hc1, Hcap. cbn [negb]. rewrite Hi1, Hl1, Hdue, Ht1, Ha1.
    destruct Hrec as [H|[H|H]].
    + rewrite H, Hcap in Hd. discriminate.
    + rewrite H. cbn [negb andb].
      full_branch e.
    + rewrite H, andb_false_r.
      full_branch e.
Qed.

Lemma C4_full_stops_recording_tick_witness :
  isBufferFull (process (tickEnv 100 true) (flash_zero_capture TRIGGER_NONE)) = false \/
  (capturing (process (tickEnv 100 true) (flash_zero_capture TRIGGER_NONE)) = false /\
   (In (logLine 0 "Buffer full - auto-stopping capture")
       (serialLogBuffer (process (tickEnv 100 true) (flash_zero_capture TRIGGER_NONE))) \/
    In (logLine 0 "Dual-mode Logic buffer full - stopping capture")
       (serialLogBuffer (process (tickEnv 100 true) (flash_zero_capture TRIGGER_NONE))))).
Proof.
  apply (C4_full_stops_recording_tick (tickEnv 100 true) (flash_zero_capture TRIGGER_NONE)).
  - vm_compute. reflexivity.
  - vm_compute. reflexivity.
  - right; left. vm_compute. reflexivity.
Defined.

(** Claim C4, counterexample: a capture started in [BUFFER_FLASH] mode with
    [maxFlashSamples] 0 reports full from the start.  While it waits for a
    rising edge, a tick leaves it capturing, still full, with nothing logged;
    without a trigger, the first tick records a sample into the full buffer
    before stopping. *)
Lemma C4_counterexample :
  isBufferFull (flash_zero_capture TRIGGER_RISING_EDGE) = true /\
  capturing (flash_zero_capture TRIGGER_RISING_EDGE) = true /\
  isBufferFull (process (tickEnv 100 false) (flash_zero_capture TRIGGER_RISING_EDGE)) = true /\
  capturing (process (tickEnv 100 false) (flash_zero_capture TRIGGER_RISING_EDGE)) = true /\
  serialLogBuffer (process (tickEnv 100 false) (flash_zero_capture TRIGGER_RISING_EDGE)) =
    serialLogBuffer (flash_zero_capture TRIGGER_RISING_EDGE) /\
  isBufferFull (flash_zero_capture TRIGGER_NONE) = true /\
  capturing (flash_zero_capture TRIGGER_NONE) = true /\
  flashSamplesWritten (process (tickEnv 100 true) (flash_zero_capture TRIGGER_NONE)) = 1.
Proof. splits; vm_compute; reflexivity. Qed.


(** * Further properties *)

Ltac view_go V rl :=
  repeat (cbv zeta;
          first
            [ rl
            | match goal with
              | |- context [V (apply_update ?u ?t)] =>
                  let H := fresh in
                  assert (H : V (apply_update u t) = V t) by (destruct t; reflexivity);
                  rewrite H; clear H
              end
            | match goal with
              | |- context [V (if ?c then _ else _)] => destruct c
              end ]);
  try reflexivity.

Lemma addLogEntry_cv (now : Z) (m : string) (s : LogicAnalyzer) :
  capture_view (addLogEntry now m s) = capture_view s.
Proof. destruct s; reflexivity. Qed.
Lemma addLogEntry_dv (now : Z) (m : string) (s : LogicAnalyzer) :
  duplex_view (addLogEntry now m s) = duplex_view s.
Proof. destruct s; reflexivity. Qed.

Ltac cv_r0 := idtac;
  match goal with
  | |- context [capture_view (addLogEntry ?a ?b ?c)] => rewrite (addLogEntry_cv a b c)
  | |- context [duplex_view (addLogEntry ?a ?b ?c)] => rewrite (addLogEntry_dv a b c)
  end.

Lemma compactUartLogs_cv (now : Z) (s : LogicAnalyzer) :
  capture_view (compactUartLogs now s) = capture_view s.
Proof. unfold compactUartLogs. view_go capture_view cv_r0. Qed.
Lemma compactUartLogs_dv (now : Z) (s : LogicAnalyzer) :
  duplex_view (compactUartLogs now s) = duplex_view s.
Proof. unfold compactUartLogs. view_go duplex_view cv_r0. Qed.

Ltac cv_r1 := idtac;
  first [ cv_r0 | match goal with
  | |- context [capture_view (compactUartLogs ?a ?b)] => rewrite (compactUartLogs_cv a b)
  | |- context [duplex_view (compactUartLogs ?a ?b)] => rewrite (compactUartLogs_dv a b)
  end ].

Lemma addUartEntry_cv (e : Env) (d : string) (r : bool) (s : LogicAnalyzer) :
  capture_view (addUartEntry e d r s) = capture_view s.
Proof. unfold addUartEntry. view_go capture_view cv_r1. Qed.
Lemma addUartEntry_dv (e : Env) (d : string) (r : bool) (s : LogicAnalyzer) :
  duplex_view (addUartEntry e d r s) = duplex_view s.
Proof. unfold addUartEntry. view_go duplex_view cv_r1. Qed.

Ltac cv_r2 := idtac;
  first [ cv_r1 | match goal with
  | |- context [capture_view (addUartEntry ?a ?b ?c ?d)] => rewrite (addUartEntry_cv a b c d)
  | |- context [duplex_view (addUartEntry ?a ?b ?c ?d)] => rewrite (addUartEntry_dv a b c d)
  end ].

Lemma uartFeedByte_cv (e : Env) (dual : bool) (s : LogicAnalyzer) (c : ascii) :
  capture_view (uartFeedByte e dual s c) = capture_view s.
Proof. unfold uartFeedByte. view_go capture_view cv_r2. Qed.
Lemma uartFeedByte_dv (e : Env) (dual : bool) (s : LogicAnalyzer) (c : ascii) :
  duplex_view (uartFeedByte e dual s c) = duplex_view s.
Proof. unfold uartFeedByte. view_go duplex_view cv_r2. Qed.
Lemma uartTimeout_cv (e : Env) (x : string) (s : LogicAnalyzer) :
  capture_view (uartTimeout e x s) = capture_view s.
Proof. unfold uartTimeout. view_go capture_view cv_r2. Qed.
Lemma uartTimeout_dv (e : Env) (x : string) (s : LogicAnalyzer) :
  duplex_view (uartTimeout e x s) = duplex_view s.
Proof. unfold uartTimeout. view_go duplex_view cv_r2. Qed.
Lemma switchToTxMode_cv (e : Env) (s : LogicAnalyzer) :
  capture_view (switchToTxMode e s) = capture_view s.
Proof. unfold switchToTxMode. view_go capture_view cv_r2. Qed.
Lemma switchToRxMode_cv (e : Env) (s : LogicAnalyzer) :
  capture_view (switchToRxMode e s) = capture_view s.
Proof. unfold switchToRxMode. view_go capture_view cv_r2. Qed.

Lemma feedAll_cv (e : Env) (dual : bool) (bytes : list ascii) :
  forall s, capture_view (fold_left (uartFeedByte e dual) bytes s) = capture_view s.
Proof.
  induction bytes as [|c r IH]; intros s; [reflexivity|].
  cbn [fold_left]. rewrite IH. apply uartFeedByte_cv.
Qed.
Lemma feedAll_dv (e : Env) (dual : bool) (bytes : list ascii) :
  forall s, duplex_view (fold_left (uartFeedByte e dual) bytes s) = duplex_view s.
Proof.
  induction bytes as [|c r IH]; intros s; [reflexivity|].
  cbn [fold_left]. rewrite IH. apply uartFeedByte_dv.
Qed.

Ltac cv_r3 := idtac;
  first [ cv_r2 | match goal with
  | |- context [capture_view (uartTimeout ?a ?b ?c)] => rewrite (uartTimeout_cv a b c)
  | |- context [capture_view (switchToTxMode ?a ?b)] => rewrite (switchToTxMode_cv a b)
  | |- context [capture_view (switchToRxMode ?a ?b)] => rewrite (switchToRxMode_cv a b)
  | |- context [capture_view (fold_left (uartFeedByte ?a ?b) ?c ?d)] =>
      rewrite (feedAll_cv a b c d)
  end ].

Lemma processHalfDuplexQueue_cv (e : Env) (s : LogicAnalyzer) :
  capture_view (processHalfDuplexQueue e s) = capture_view s.
Proof. unfold processHalfDuplexQueue. view_go capture_view cv_r3. Qed.

Ltac cv_r4 := idtac;
  first [ cv_r3 | match goal with
  | |- context [capture_view (processHalfDuplexQueue ?a ?b)] =>
      rewrite (processHalfDuplexQueue_cv a b)
  end ].

Lemma processUartData_cv (e : Env) (s : LogicAnalyzer) :
  capture_view (processUartData e s) = capture_view s.
Proof. unfold processUartData. view_go capture_view cv_r4. Qed.

Lemma rv_of_cv (t u : LogicAnalyzer) :
  capture_view t = capture_view u -> ring_view t = ring_view u.
Proof.
  unfold capture_view, logic_view, ring_view. intros H.
  injection H; clear H; intros. congruence.
Qed.

Lemma addLogEntry_rv (now : Z) (m : string) (s : LogicAnalyzer) :
  ring_view (addLogEntry now m s) = ring_view s.
Proof. apply rv_of_cv, addLogEntry_cv. Qed.
Lemma uartTimeout_rv (e : Env) (x : string) (s : LogicAnalyzer) :
  ring_view (uartTimeout e x s) = ring_view s.
Proof. apply rv_of_cv, uartTimeout_cv. Qed.
Lemma feedAll_rv (e : Env) (dual : bool) (bytes : list ascii) (s : LogicAnalyzer) :
  ring_view (fold_left (uartFeedByte e dual) bytes s) = ring_view s.
Proof. apply rv_of_cv, feedAll_cv. Qed.
Lemma processUartData_rv (e : Env) (s : LogicAnalyzer) :
  ring_view (processUartData e s) = ring_view s.
Proof. apply rv_of_cv, processUartData_cv. Qed.

Lemma pushCompressed_rv (r : CompressedSample) (s : LogicAnalyzer) :
  ring_view (pushCompressed r s) = ring_view s.
Proof.
  unfold pushCompressed. destruct (compressedBuffer s); [|reflexivity].
  view_go ring_view fail.
Qed.

Ltac rv_r0 := idtac;
  match goal with
  | |- context [ring_view (addLogEntry ?a ?b ?c)] => rewrite (addLogEntry_rv a b c)
  | |- context [ring_view (uartTimeout ?a ?b ?c)] => rewrite (uartTimeout_rv a b c)
  | |- context [ring_view (fold_left (uartFeedByte ?a ?b) ?c ?d)] => rewrite (feedAll_rv a b c d)
  | |- context [ring_view (processUartData ?a ?b)] => rewrite (processUartData_rv a b)
  | |- context [ring_view (pushCompressed ?a ?b)] => rewrite (pushCompressed_rv a b)
  end.

Lemma compressSample_rv (x : Sample) (s : LogicAnalyzer) :
  ring_view (compressSample x s) = ring_view s.
Proof.
  unfold compressSample, compressRunLength, compressDelta.
  destruct (compressedBuffer s); [|reflexivity].
  destruct (compression (logicConfig s)); view_go ring_view rv_r0.
Qed.

Lemma addSample_rv (e : Env) (d : bool) (s : LogicAnalyzer) :
  bufferMode (logicConfig s) = BUFFER_COMPRESSED ->
  ring_view (addSample e d s) = ring_view s.
Proof. intros Hm. unfold addSample. rewrite Hm. apply compressSample_rv. Qed.

Lemma isBufferFull_rv (t s : LogicAnalyzer) :
  bufferMode (logicConfig s) = BUFFER_COMPRESSED ->
  ring_view t = ring_view s -> isBufferFull t = isBufferFull s.
Proof.
  unfold ring_view, isBufferFull, getBufferUsage. intros Hm H.
  injection H as Hl Hw Hr Hc. rewrite Hl, Hw, Hr, Hm. reflexivity.
Qed.

Ltac rv_side s :=
  idtac;
  match goal with
  | |- bufferMode (logicConfig ?c) = BUFFER_COMPRESSED =>
      let H := fresh "Hrv" in let H1 := fresh "Hlc" in
      assert (H : ring_view c = ring_view s) by view_go ring_view rv_r0;
      assert (H1 : bufferMode (logicConfig c) = bufferMode (logicConfig s))
        by exact (f_equal (fun v => bufferMode (fst (fst (fst v)))) H);
      rewrite H1; assumption
  end.

Ltac rv_r1 s := idtac;
  first [ rv_r0 | match goal with
  | |- context [ring_view (addSample ?a ?b ?c)] =>
      rewrite (addSample_rv a b c) by rv_side s
  end ].

Lemma processDualModeData_rv (e : Env) (c : bool) (s : LogicAnalyzer) :
  bufferMode (logicConfig s) = BUFFER_COMPRESSED -> isBufferFull s = false ->
  ring_view (processDualModeData e c s) = ring_view s.
Proof.
  intros Hm Hf. unfold processDualModeData. cbv zeta.
  match goal with |- context [if isBufferFull ?X then _ else _] =>
    assert (HX : ring_view X = ring_view s) by view_go ring_view ltac:(rv_r1 s);
    rewrite (isBufferFull_rv X s Hm HX), Hf; exact HX
  end.
Qed.

Lemma process_rv (e : Env) (s : LogicAnalyzer) :
  bufferMode (logicConfig s) = BUFFER_COMPRESSED -> isBufferFull s = false ->
  capturing s = true ->
  ring_view (process e s) = ring_view s.
Proof.
  intros Hm Hf Hc. unfold process. cbv zeta.
  destruct (dualModeActive s && uartMonitoringEnabled s && capturing s).
  - destruct (_ <=? _); [|reflexivity].
    match goal with |- ring_view (apply_update ?u ?t) = _ =>
      transitivity (ring_view t); [destruct t; reflexivity|] end.
    apply processDualModeData_rv; assumption.
  - set (s1 := if uartMonitoringEnabled s then processUartData e s else s).
    assert (H1 : ring_view s1 = ring_view s)
      by (subst s1; destruct (uartMonitoringEnabled s); [apply processUartData_rv | reflexivity]).
    assert (Hc1 : capturing s1 = true)
      by (unfold ring_view in H1; injection H1 as _ _ _ ->; exact Hc).
    assert (Hm1 : bufferMode (logicConfig s1) = BUFFER_COMPRESSED)
      by (unfold ring_view in H1; injection H1 as -> _ _ _; exact Hm).
    clearbody s1. rewrite Hc1. cbn [negb].
    destruct (_ <=? _); [|exact H1].
    destruct (_ && _).
    + rewrite <- H1. view_go ring_view rv_r0.
    + match goal with |- context [if isBufferFull ?X then _ else _] =>
        assert (HX : ring_view X = ring_view s) end.
      { rewrite <- H1.
        match goal with |- ring_view (apply_update ?u ?t) = _ =>
          transitivity (ring_view t); [destruct t; reflexivity|] end.
        apply addSample_rv, Hm1. }
      rewrite (isBufferFull_rv _ s Hm HX), Hf. exact HX.
Qed.

(** Compression state as [compressSample] sees it. *)
Lemma pushCompressed_buf (r : CompressedSample) (s : LogicAnalyzer) :
  compressedBuffer (pushCompressed r s) =
    match compressedBuffer s with
    | Some l => if Z.of_nat (List.length l) <? COMPRESSED_CAPACITY then Some (l ++ [r]) else Some l
    | None => None
    end.
Proof.
  unfold pushCompressed; destruct (compressedBuffer s) as [l|] eqn:E; [|exact E].
  destruct (_ <? _); [destruct s; reflexivity | exact E].
Qed.

Lemma pushCompressed_other (r : CompressedSample) (s : LogicAnalyzer) :
  (lastTimestamp (pushCompressed r s), lastData (pushCompressed r s),
   runLength (pushCompressed r s), logicConfig (pushCompressed r s)) =
  (lastTimestamp s, lastData s, runLength s, logicConfig s).
Proof.
  unfold pushCompressed; destruct (compressedBuffer s) as [l|]; [|reflexivity].
  destruct (_ <? _); [destruct s; reflexivity | reflexivity].
Qed.

Lemma cb_ok_eq (t u : LogicAnalyzer) : compressedBuffer u = compressedBuffer t -> cb_ok t u.
Proof. intros E. unfold cb_ok, compressedCount. rewrite E. split; auto. Qed.

Lemma cb_ok_trans (t u v : LogicAnalyzer) : cb_ok t u -> cb_ok u v -> cb_ok t v.
Proof.
  unfold cb_ok. intros [A B] [C D]. split; [auto|].
  intros E. assert (F := B E). rewrite <- F.
  apply D. unfold compressedCount in *. rewrite F. exact E.
Qed.

Lemma cb_ok_push (r : CompressedSample) (t : LogicAnalyzer) : cb_ok t (pushCompressed r t).
Proof.
  unfold cb_ok, compressedCount. rewrite pushCompressed_buf.
  destruct (compressedBuffer t) as [l|]; [|split; [lia | reflexivity]].
  destruct (Z.ltb_spec (Z.of_nat (List.length l)) COMPRESSED_CAPACITY) as [L|L].
  - rewrite length_app. cbn [List.length]. split; intros; lia.
  - split; [auto | reflexivity].
Qed.

Ltac cbo :=
  idtac;
  match goal with
  | |- cb_ok ?t ?t => apply cb_ok_eq; reflexivity
  | |- cb_ok ?t (pushCompressed ?r ?v) =>
      apply (cb_ok_trans t v); [cbo | apply cb_ok_push]
  | |- cb_ok ?t (compressRunLength _ _ _ ?v) => unfold compressRunLength; cbo
  | |- cb_ok ?t (compressDelta _ _ ?v) => unfold compressDelta; cbo
  | |- cb_ok ?t (apply_update ?f ?v) =>
      apply (cb_ok_trans t v); [cbo | apply cb_ok_eq; destruct v; reflexivity]
  | |- cb_ok ?t (if ?c then _ else _) => destruct c; cbo
  end.

(** Property X4: Whatever samples are fed to [compressSample], the compression buffer
    never holds more than [COMPRESSED_CAPACITY] (1000) records, and once it
    is full its contents no longer change: later samples are dropped. *)
Theorem X_compressAll_capacity (xs : list Sample) :
  forall (s : LogicAnalyzer), compressedCount s <= COMPRESSED_CAPACITY ->
  compressedCount (compressAll xs s) <= COMPRESSED_CAPACITY /\
  (compressedCount s = COMPRESSED_CAPACITY -> compressedBuffer (compressAll xs s) = compressedBuffer s).
Proof.
  assert (K : forall s, cb_ok s (compressAll xs s)).
  { induction xs as [|x r IH]; intros s; [apply cb_ok_eq; reflexivity|].
    unfold compressAll; cbn [fold_left]; fold (compressAll r).
    apply (cb_ok_trans s (compressSample x s)); [|apply IH].
    unfold compressSample. destruct (compressedBuffer s); [|apply cb_ok_eq; reflexivity].
    cbv zeta. destruct (compression (logicConfig s)); cbo. }
  intros s H. destruct (K s) as [A B]. split; auto.
Qed.

Lemma hybrid_same (x : Sample) (s : LogicAnalyzer) (l : list CompressedSample) :
  compression (logicConfig s) = COMPRESS_HYBRID -> compressedBuffer s = Some l ->
  data x = lastData s -> runLength s < 65535 ->
  comp_view (compressSample x s) = (COMPRESS_HYBRID, Some l, timestamp x, data x, runLength s + 1).
Proof.
  intros Hc Hb Hd Hr.
  destruct s; cbn in Hc, Hb, Hd, Hr.
  unfold compressSample; rsimpl. rewrite Hb, Hc, Hd, eqb_reflx.
  rewrite (proj2 (Z.ltb_lt _ _) Hr). cbn [andb]. unfold comp_view; rsimpl. rewrite Hc. reflexivity.
Qed.

Lemma hybrid_change (x : Sample) (s : LogicAnalyzer) (l : list CompressedSample) :
  compression (logicConfig s) = COMPRESS_HYBRID -> compressedBuffer s = Some l ->
  data x <> lastData s -> 0 < runLength s -> (List.length l + 2 <= 1000)%nat ->
  comp_view (compressSample x s) =
    (COMPRESS_HYBRID,
     Some (l ++ [mkCompressed (lastTimestamp s) (runLength s mod 2 ^ 16) (lastData s) COMPRESS_RLE;
                 mkCompressed (u32 (timestamp x - lastTimestamp s)) 1 (data x) COMPRESS_DELTA]),
     timestamp x, data x, 1).
Proof.
  intros Hc Hb Hd Hr Hn.
  destruct s; cbn in Hc, Hb, Hd, Hr.
  unfold compressSample; rsimpl. rewrite Hb, Hc, (proj2 (Bool.eqb_false_iff _ _) Hd).
  cbn [andb]. rewrite (proj2 (Z.ltb_lt _ _) Hr).
  unfold compressRunLength, compressDelta, pushCompressed; rsimpl.
  rewrite (proj2 (Z.ltb_lt (Z.of_nat (List.length l)) COMPRESSED_CAPACITY))
    by (unfold COMPRESSED_CAPACITY; lia).
  rsimpl.
  rewrite (proj2 (Z.ltb_lt (Z.of_nat (List.length (l ++ _))) COMPRESSED_CAPACITY))
    by (rewrite length_app; cbn [List.length]; unfold COMPRESSED_CAPACITY; lia).
  unfold comp_view; rsimpl. rewrite Hc, <- app_assoc. reflexivity.
Qed.

Lemma comp_view_fields (t : LogicAnalyzer) a b c d e :
  comp_view t = (a, b, c, d, e) ->
  compression (logicConfig t) = a /\ compressedBuffer t = b /\ lastTimestamp t = c /\
  lastData t = d /\ runLength t = e.
Proof. unfold comp_view. intros H. inversion H. splits; reflexivity. Qed.

Lemma last_cons_default {A} (l : list A) : forall (a d : A), last (a :: l) d = last l a.
Proof.
  induction l as [|b r IH]; intros a d; [reflexivity|].
  change (last (a :: b :: r) d) with (last (b :: r) d). rewrite !IH. reflexivity.
Qed.

Lemma hybrid_run (xs : list Sample) :
  forall (t : LogicAnalyzer) (l : list CompressedSample),
  compression (logicConfig t) = COMPRESS_HYBRID -> compressedBuffer t = Some l ->
  Forall (fun x => data x = lastData t) xs -> runLength t + Z.of_nat (List.length xs) <= 65535 ->
  comp_view (compressAll xs t) =
    (COMPRESS_HYBRID, Some l, last (map timestamp xs) (lastTimestamp t), lastData t,
     runLength t + Z.of_nat (List.length xs)).
Proof.
  induction xs as [|x r IH]; intros t l Hc Hb Hd Hn.
  - unfold comp_view; cbn. rewrite Hc, Hb, Z.add_0_r. reflexivity.
  - inversion Hd as [|? ? Hx Hr]; subst. cbn [List.length] in Hn.
    change (compressAll (x :: r) t) with (compressAll r (compressSample x t)).
    pose proof (hybrid_same x t l Hc Hb Hx ltac:(lia)) as E.
    destruct (comp_view_fields _ _ _ _ _ _ E) as (C1 & C2 & C3 & C4 & C5).
    rewrite (IH _ l C1 C2); [| rewrite C4, Hx; exact Hr | rewrite C5; lia].
    rewrite C3, C4, C5, Hx. cbn [map]. rewrite last_cons_default.
    f_equal. cbn [List.length]. lia.
Qed.

(** Property X5: In [COMPRESS_HYBRID], with an allocated compressed buffer
    that has room for four more records and a current run of 1 to 65535
    samples: when a sample [x0] changes the value, then [|xs|] further
    samples equal to it follow with [|xs| + 1 <= 65535] (so the run is not
    split by the run-length cap), and a sample [y] changes the value again,
    exactly four records are appended: an RLE record closing the previous
    run, a DELTA record of count 1 for [x0], an RLE record counting the whole
    run of [|xs| + 1] samples including [x0], and a DELTA record of count 1
    for [y].  The first sample of the run is recorded twice. *)
Theorem X_hybrid_run_records (s : LogicAnalyzer) (l : list CompressedSample)
  (x0 y : Sample) (xs : list Sample)
  (Hc : compression (logicConfig s) = COMPRESS_HYBRID)
  (Hb : compressedBuffer s = Some l)
  (Hroom : (List.length l + 4 <= 1000)%nat)
  (Hr : 0 < runLength s <= 65535)
  (Hx0 : data x0 <> lastData s)
  (Hxs : Forall (fun x => data x = data x0) xs)
  (Hy : data y <> data x0)
  (Hn : Z.of_nat (List.length xs) < 65535) :
  compressedBuffer (compressAll (x0 :: xs ++ [y]) s) =
    Some (l ++ [mkCompressed (lastTimestamp s) (runLength s) (lastData s) COMPRESS_RLE;
                mkCompressed (u32 (timestamp x0 - lastTimestamp s)) 1 (data x0) COMPRESS_DELTA;
                mkCompressed (last (map timestamp xs) (timestamp x0))
                             (Z.of_nat (List.length xs) + 1) (data x0) COMPRESS_RLE;
                mkCompressed (u32 (timestamp y - last (map timestamp xs) (timestamp x0)))
                             1 (data y) COMPRESS_DELTA]).
Proof.
  change (compressAll (x0 :: xs ++ [y]) s)
    with (compressAll (xs ++ [y]) (compressSample x0 s)).
  unfold compressAll; rewrite fold_left_app; fold (compressAll xs (compressSample x0 s)).
  cbn [fold_left].
  pose proof (hybrid_change x0 s l Hc Hb Hx0 ltac:(lia) ltac:(lia)) as E1.
  destruct (comp_view_fields _ _ _ _ _ _ E1) as (A1 & B1 & C1 & D1 & F1).
  pose proof (hybrid_run xs _ _ A1 B1 ltac:(rewrite D1; exact Hxs) ltac:(rewrite F1; lia)) as E2.
  rewrite C1, D1, F1 in E2.
  destruct (comp_view_fields _ _ _ _ _ _ E2) as (A2 & B2 & C2 & D2 & F2).
  pose proof (hybrid_change y _ _ A2 B2 ltac:(rewrite D2; exact Hy) ltac:(rewrite F2; lia)
                ltac:(rewrite length_app; cbn [List.length]; lia)) as E3.
  destruct (comp_view_fields _ _ _ _ _ _ E3) as (A3 & B3 & C3 & D3 & F3).
  rewrite B3, C2, D2, F2, <- app_assoc.
  rewrite (Z.mod_small (runLength s)) by lia.
  rewrite (Z.mod_small (1 + _)) by lia.
  rewrite Z.add_comm. reflexivity.
Qed.

Lemma startCapture_rv (e : Env) (s : LogicAnalyzer) :
  bufferMode (logicConfig s) = BUFFER_COMPRESSED ->
  ring_view (startCapture e s) = (logicConfig s, 0, 0, true).
Proof.
  intros Hm. unfold startCapture, clearBuffer. rewrite (addLogEntry_rv _ _ _).
  destruct s; cbn in Hm |- *. rewrite Hm. reflexivity.
Qed.

Lemma run_ticks_rv (ticks : list Env) :
  forall (t : LogicAnalyzer) (c : LogicConfig),
  bufferMode c = BUFFER_COMPRESSED ->
  ring_view t = (c, 0, 0, true) -> ring_view (run_ticks ticks t) = (c, 0, 0, true).
Proof.
  induction ticks as [|e r IH]; intros t c Hm H; [exact H|].
  change (run_ticks (e :: r) t) with (run_ticks r (process e t)).
  unfold ring_view in H. injection H as Hl Hw Hr Hc.
  apply IH; [exact Hm|].
  assert (Hm' : bufferMode (logicConfig t) = BUFFER_COMPRESSED) by (rewrite Hl; exact Hm).
  rewrite process_rv; [unfold ring_view; rewrite Hl, Hw, Hr, Hc; reflexivity | exact Hm' | | exact Hc].
  unfold isBufferFull, getBufferUsage. rewrite Hm', Hw, Hr. reflexivity.
Qed.

(** Property X3: A capture started in [BUFFER_COMPRESSED] mode never stops by itself:
    whatever the ticks of the main loop, it is still capturing and the RAM
    ring it would count as full stays empty, since compressed samples go to
    the compression buffer and not to the ring. *)
Theorem X_compressed_capture_never_stops (e0 : Env) (ticks : list Env) (s : LogicAnalyzer)
  (Hm : bufferMode (logicConfig s) = BUFFER_COMPRESSED) :
  capturing (run_ticks ticks (startCapture e0 s)) = true /\
  getBufferUsage (run_ticks ticks (startCapture e0 s)) = 0 /\
  isBufferFull (run_ticks ticks (startCapture e0 s)) = false.
Proof.
  pose proof (run_ticks_rv ticks _ _ Hm (startCapture_rv e0 s Hm)) as H.
  unfold ring_view in H. injection H as Hl Hw Hr Hc.
  unfold isBufferFull, getBufferUsage. rewrite Hl, Hm, Hw, Hr, Hc. splits; reflexivity.
Qed.

Lemma addLogEntry_window (now : Z) (m : string) (s : LogicAnalyzer) :
  (List.length (serialLogBuffer s) <= MAX_LOG_ENTRIES)%nat ->
  serialLogBuffer (addLogEntry now m s) = log_window (serialLogBuffer s ++ [logLine now m]).
Proof.
  intros H. unfold addLogEntry, log_window.
  destruct s as [? ? ? ? ? ? ? ? ? ? ? log]; rsimpl. cbn [serialLogBuffer] in H.
  assert (Hl : (List.length (log ++ [logLine now m]) <= 101)%nat)
    by (rewrite length_app; cbn [List.length]; unfold MAX_LOG_ENTRIES in H; lia).
  generalize dependent (log ++ [logLine now m]). intros l Hl.
  unfold MAX_LOG_ENTRIES.
  destruct (Nat.ltb_spec 100 (List.length l)) as [L|L].
  - replace (List.length l - 100)%nat with 1%nat by lia. destruct l; reflexivity.
  - replace (List.length l - 100)%nat with 0%nat by lia. reflexivity.
Qed.

Lemma log_window_length (l : list string) : (List.length (log_window l) <= MAX_LOG_ENTRIES)%nat.
Proof. unfold log_window. rewrite length_skipn. unfold MAX_LOG_ENTRIES. lia. Qed.

Lemma log_window_app (l r : list string) :
  log_window (log_window l ++ r) = log_window (l ++ r).
Proof.
  unfold log_window.
  set (k := (List.length l - MAX_LOG_ENTRIES)%nat).
  assert (E : skipn k l ++ r = skipn k (l ++ r)).
  { rewrite skipn_app. replace (k - List.length l)%nat with 0%nat by (unfold k; lia).
    reflexivity. }
  rewrite E, skipn_skipn, length_skipn, length_app.
  f_equal. unfold k, MAX_LOG_ENTRIES. lia.
Qed.

(** Property X1: However many [addLogEntry] calls are made, the serial log holds exactly
    the last [MAX_LOG_ENTRIES] (100) lines of the old log followed by the new
    ["<millis>: <message>"] lines, oldest first. *)
Theorem X_log_window (msgs : list (Z * string)) :
  forall (s : LogicAnalyzer),
  (List.length (serialLogBuffer s) <= MAX_LOG_ENTRIES)%nat ->
  serialLogBuffer (addLogEntries msgs s) =
    log_window (serialLogBuffer s ++ map (fun '(now, m) => logLine now m) msgs).
Proof.
  induction msgs as [|[now m] r IH]; intros s H.
  - cbn. rewrite app_nil_r. unfold log_window.
    replace (List.length (serialLogBuffer s) - MAX_LOG_ENTRIES)%nat with 0%nat by lia.
    reflexivity.
  - change (addLogEntries ((now, m) :: r) s) with (addLogEntries r (addLogEntry now m s)).
    rewrite IH by (rewrite addLogEntry_window by exact H; apply log_window_length).
    rewrite addLogEntry_window by exact H.
    rewrite log_window_app, <- app_assoc. reflexivity.
Qed.

(** Property X6: [getCompressionRatio] is 0 when nothing was written to flash or nothing
    is compressed; with [0 < compressedCount <= flashSamplesWritten <=
    MAX_FLASH_BUFFER_SIZE] it is the saved percentage
    [(flashSamplesWritten - compressedCount) * 100 / flashSamplesWritten];
    when more records are compressed than samples were written the unsigned
    subtraction wraps and the reported ratio exceeds 100. *)
Theorem X_compression_ratio (s : LogicAnalyzer)
  (Hw : 0 <= flashSamplesWritten s <= MAX_FLASH_BUFFER_SIZE) :
  ((flashSamplesWritten s = 0 \/ compressedCount s = 0) -> getCompressionRatio s = 0) /\
  (0 < compressedCount s <= flashSamplesWritten s ->
   getCompressionRatio s = (flashSamplesWritten s - compressedCount s) * 100 / flashSamplesWritten s) /\
  (0 < flashSamplesWritten s < compressedCount s -> compressedCount s <= COMPRESSED_CAPACITY ->
   100 < getCompressionRatio s).
Proof.
  assert (Hc : 0 <= compressedCount s)
    by (unfold compressedCount; destruct (compressedBuffer s); lia).
  unfold getCompressionRatio, sizeof_Sample, sizeof_CompressedSample, u32.
  unfold MAX_FLASH_BUFFER_SIZE in Hw.
  set (w := flashSamplesWritten s) in *. set (c := compressedCount s) in *.
  splits.
  - intros [E|E].
    + rewrite E. reflexivity.
    + rewrite E. destruct (w =? 0); reflexivity.
  - intros [C1 C2].
    rewrite (proj2 (Z.eqb_neq w 0)) by lia.
    rewrite (Z.mod_small (c * 8)) by lia.
    rewrite (proj2 (Z.eqb_neq (c * 8) 0)) by lia.
    rewrite (Z.mod_small (w * 8)) by lia.
    rewrite (Z.mod_small (w * 8 - c * 8)) by lia.
    rewrite (Z.mod_small ((w * 8 - c * 8) * 100)) by lia.
    replace ((w * 8 - c * 8) * 100) with (((w - c) * 100) * 8) by ring.
    rewrite Z.div_mul_cancel_r by lia. reflexivity.
  - intros [C1 C2] C3. unfold COMPRESSED_CAPACITY in C3.
    rewrite (proj2 (Z.eqb_neq w 0)) by lia.
    rewrite (Z.mod_small (c * 8)) by lia.
    rewrite (proj2 (Z.eqb_neq (c * 8) 0)) by lia.
    rewrite (Z.mod_small (w * 8)) by lia.
    rewrite <- (Z.mod_unique_pos (w * 8 - c * 8) (2 ^ 32) (-1) (2 ^ 32 - 8 * (c - w)))
      by lia.
    rewrite <- (Z.mod_unique_pos ((2 ^ 32 - 8 * (c - w)) * 100) (2 ^ 32) 99
                  (2 ^ 32 - 800 * (c - w))) by lia.
    apply (Z.lt_le_trans _ 101); [lia|]. apply Z.div_le_lower_bound; lia.
Qed.

Lemma stopStreaming_fields (e : Env) (s : LogicAnalyzer) :
  streamingActive (stopStreaming e s) = false /\
  logicConfig (stopStreaming e s) = logicConfig s.
Proof.
  unfold stopStreaming. destruct (streamingActive s) eqn:E; [|split; [exact E | reflexivity]].
  unfold flushFlashBuffer.
  destruct (flashWriteBuffer s);
    [destruct (bufferPosition s =? 0); [|destruct (flashDataFile s || fs_ok e)] |];
    destruct s; split; reflexivity.
Qed.

(** Property X7: [stopStreaming] always leaves streaming inactive, a second call does
    nothing, and in [BUFFER_STREAMING] mode an [addSample] call after it
    leaves the state unchanged: the capture may go on, but no sample is
    stored any more. *)
Theorem X_stopStreaming_final (e e' : Env) (d : bool) (s : LogicAnalyzer)
  (Hm : bufferMode (logicConfig s) = BUFFER_STREAMING) :
  streamingActive (stopStreaming e s) = false /\
  stopStreaming e' (stopStreaming e s) = stopStreaming e s /\
  addSample e' d (stopStreaming e s) = stopStreaming e s.
Proof.
  destruct (stopStreaming_fields e s) as [A L].
  splits.
  - exact A.
  - unfold stopStreaming at 1. rewrite A. reflexivity.
  - unfold addSample. rewrite L, Hm. unfold processStreamingSample. rewrite A. reflexivity.
Qed.


Lemma addUartEntry_ram (e : Env) (d : string) (isRx : bool) (s : LogicAnalyzer) :
  useFlashStorage s = false ->
  let l := uartLogBuffer s ++ [uartEntry e d isRx] in
  uartLogBuffer (addUartEntry e d isRx s) =
    (if maxUartEntries s <? Z.of_nat (List.length l)
     then skipn (Z.to_nat (2 * maxUartEntries s / 10)) l else l) /\
  useFlashStorage (addUartEntry e d isRx s) = false /\
  maxUartEntries (addUartEntry e d isRx s) = maxUartEntries s.
Proof.
  intros Hram l. subst l. unfold uartEntry.
  destruct s; cbn in Hram; subst.
  unfold addUartEntry; rsimpl. set (l := uartLogBuffer0 ++ [_]).
  destruct (Z.ltb_spec maxUartEntries0 (Z.of_nat (List.length l))) as [H|H];
    unfold addLogEntry; rsimpl; [|splits; reflexivity].
  unfold compactUartLogs; rsimpl.
  destruct (Z.leb_spec (9 * maxUartEntries0) (10 * Z.of_nat (List.length l))); [|lia].
  unfold addLogEntry; rsimpl. splits; reflexivity.
Qed.

Lemma setUartBufferSize_fields (e : Env) (m : Z) (s : LogicAnalyzer) :
  uartLogBuffer (setUartBufferSize e m s) =
    skipn (List.length (uartLogBuffer s) - Z.to_nat m) (uartLogBuffer s) /\
  useFlashStorage (setUartBufferSize e m s) = useFlashStorage s /\
  maxUartEntries (setUartBufferSize e m s) = m.
Proof. destruct s; splits; reflexivity. Qed.

(** Property X9: In RAM mode, once [setUartBufferSize m] has run with [m >= 5], the UART
    log never holds more than [m] entries, whatever entries are added after;
    the compaction that runs when an entry overflows the store always frees
    at least one slot. *)
Theorem X_uart_ram_bound (e : Env) (m : Z) (ops : list (Env * string * bool))
  (s : LogicAnalyzer) (Hm : 5 <= m) (Hram : useFlashStorage s = false) :
  Z.of_nat (List.length (uartLogBuffer (addUartEntries ops (setUartBufferSize e m s)))) <= m.
Proof.
  assert (I : forall t, useFlashStorage t = false -> maxUartEntries t = m ->
            Z.of_nat (List.length (uartLogBuffer t)) <= m ->
            Z.of_nat (List.length (uartLogBuffer (addUartEntries ops t))) <= m).
  { induction ops as [|[[e' d] r] rest IH]; intros t Hf Hx Hl; [exact Hl|].
    change (addUartEntries ((e', d, r) :: rest) t)
      with (addUartEntries rest (addUartEntry e' d r t)).
    destruct (addUartEntry_ram e' d r t Hf) as (B & F & X).
    apply IH; [exact F | rewrite X; exact Hx |].
    rewrite B, Hx. rewrite length_app. cbn [List.length].
    destruct (Z.ltb_spec m (Z.of_nat (List.length (uartLogBuffer t) + 1))) as [L|L];
      [|rewrite length_app; cbn [List.length]; lia].
    rewrite length_skipn, length_app. cbn [List.length].
    assert (1 <= 2 * m / 10) by (apply Z.div_le_lower_bound; lia).
    lia. }
  destruct (setUartBufferSize_fields e m s) as (B & F & X).
  apply I; [rewrite F; exact Hram | exact X |].
  rewrite B, length_skipn. lia.
Qed.

(** Property X10: With a capacity below 5 ([setUartBufferSize] takes any value; only the
    HTTP handler clamps it to at least 100), the compaction removes
    [2 * m / 10 = 0] entries: in RAM mode every added entry is kept and the
    log grows past its capacity. *)
Theorem X_uart_small_capacity_never_compacts (e : Env) (m : Z)
  (ops : list (Env * string * bool)) (s : LogicAnalyzer)
  (Hm : 0 <= m < 5) (Hram : useFlashStorage s = false) :
  uartLogBuffer (addUartEntries ops (setUartBufferSize e m s)) =
    uartLogBuffer (setUartBufferSize e m s) ++ map (fun '(e', d, r) => uartEntry e' d r) ops.
Proof.
  assert (I : forall t, useFlashStorage t = false -> maxUartEntries t = m ->
            uartLogBuffer (addUartEntries ops t) =
              uartLogBuffer t ++ map (fun '(e', d, r) => uartEntry e' d r) ops).
  { induction ops as [|[[e' d] r] rest IH]; intros t Hf Hx; [symmetry; apply app_nil_r|].
    change (addUartEntries ((e', d, r) :: rest) t)
      with (addUartEntries rest (addUartEntry e' d r t)).
    destruct (addUartEntry_ram e' d r t Hf) as (B & F & X).
    rewrite IH by (rewrite ?X; assumption).
    rewrite B, Hx. replace (2 * m / 10) with 0 by (symmetry; apply Z.div_small; lia).
    change (Z.to_nat 0) with O. cbn [skipn].
    destruct (m <? Z.of_nat _); rewrite <- app_assoc; reflexivity. }
  destruct (setUartBufferSize_fields e m s) as (B & F & X).
  apply I; [rewrite F; exact Hram | exact X].
Qed.

(** Property X11: In flash mode, an entry logged while the file system fails falls back
    to the RAM list, and [clearUartLogs] (the [/api/uart/clear] action) only
    empties the flash log: the fallback entries survive the clear. *)
Theorem X_flash_fallback_survives_clear (e e' : Env) (d : string) (isRx : bool)
  (s : LogicAnalyzer)
  (Hf : useFlashStorage s = true) (Hfail : fs_ok e = false) (Hok : fs_ok e' = true) :
  uartLogBuffer (clearUartLogs e' (addUartEntry e d isRx s)) =
    uartLogBuffer s ++ [uartEntry e d isRx] /\
  uartLogFile (clearUartLogs e' (addUartEntry e d isRx s)) = [].
Proof.
  destruct s; cbn in Hf; subst.
  unfold clearUartLogs, clearFlashUartLogs, addUartEntry, addLogEntry, uartEntry; rsimpl.
  rewrite Hfail. rsimpl. rewrite Hok.
  destruct uartLogFile0; rsimpl; split; reflexivity.
Qed.

Lemma stopCapture_ring (e : Env) (t : LogicAnalyzer) :
  writeIndex (stopCapture e t) = writeIndex t /\ buffer (stopCapture e t) = buffer t.
Proof.
  unfold stopCapture. cbv zeta.
  destruct (BufferMode_eqb _ BUFFER_FLASH); [unfold flushFlashBuffer|].
  - destruct (flashWriteBuffer _);
      [destruct (bufferPosition _ =? 0); [|destruct (flashDataFile _ || fs_ok e)] |];
      destruct t; split; reflexivity.
  - destruct t; split; reflexivity.
Qed.

(** Property X12: Above 1 MHz, [setSampleRate] sets the sample interval to
    [1000000 / rate = 0] microseconds: every call of [process] on a running,
    armed RAM capture stores a sample, however little time has passed since
    the previous one. *)
Theorem X_high_rate_samples_every_call (rate : Z) (e : Env) (s : LogicAnalyzer)
  (Hr : 1000000 < rate) (Hc : capturing s = true) (Hu : uartMonitoringEnabled s = false)
  (Ha : triggerArmed s = true) (Hm : bufferMode (logicConfig s) = BUFFER_RAM) :
  sampleInterval (setSampleRate rate s) = 0 /\
  writeIndex (process e (setSampleRate rate s)) = (writeIndex s + 1) mod BUFFER_SIZE /\
  buffer (process e (setSampleRate rate s)) (writeIndex s) = mkSample (u32 (sample_us e)) (pin e).
Proof.
  assert (Hi : sampleInterval (setSampleRate rate s) = 0).
  { unfold setSampleRate. unfold MIN_SAMPLE_RATE, MAX_SAMPLE_RATE.
    destruct (Z.ltb_spec rate 10); [lia|].
    destruct (Z.ltb_spec 40000000 rate); destruct s; cbn;
      first [reflexivity | apply Z.div_small; lia]. }
  split; [exact Hi|].
  set (t := setSampleRate rate s) in *.
  assert (F : capturing t = true /\ uartMonitoringEnabled t = false /\ triggerArmed t = true /\
              bufferMode (logicConfig t) = BUFFER_RAM /\ writeIndex t = writeIndex s)
    by (subst t; destruct s; cbn in *; splits; assumption || reflexivity).
  destruct F as (Fc & Fu & Fa & Fm & Fw).
  unfold process. rewrite Fu, andb_false_r, andb_false_l, Fc, Hi. cbn [negb].
  rewrite (proj2 (Z.leb_le 0 _)) by (unfold u32; apply Z.mod_pos_bound; lia).
  rewrite Fa, andb_false_r. unfold addSample. rewrite Fm.
  set (w := (apply_update _ _)).
  assert (W : writeIndex w = (writeIndex s + 1) mod BUFFER_SIZE /\
              buffer w (writeIndex s) = mkSample (u32 (sample_us e)) (pin e)).
  { subst w. rewrite <- Fw. destruct t; rsimpl. rewrite Z.eqb_refl. split; reflexivity. }
  destruct (isBufferFull w); [|exact W].
  destruct (stopCapture_ring e (addLogEntry (now_ms e) "Buffer full - auto-stopping capture" w))
    as [S1 S2].
  rewrite S1, S2. destruct w; exact W.
Qed.

Lemma ram_record_buffer (t : LogicAnalyzer) (e : Env) (v : bool) :
  bufferMode (logicConfig t) = BUFFER_RAM ->
  buffer (ram_step t (RamRecord e v)) =
    (fun i => if i =? writeIndex t then mkSample (u32 (sample_us e)) v else buffer t i).
Proof.
  intros Hm. destruct t; cbn in Hm. unfold ram_step, addSample; rsimpl. rewrite Hm.
  reflexivity.
Qed.

Lemma ram_records_buffer (recs : list (Env * bool)) :
  forall (t : LogicAnalyzer), ram_inv t ->
  writeIndex t + Z.of_nat (List.length recs) < BUFFER_SIZE ->
  forall i, 0 <= i < writeIndex t + Z.of_nat (List.length recs) ->
  buffer (ram_run (RamRecords recs) t) i =
    if i <? writeIndex t then buffer t i
    else nth (Z.to_nat (i - writeIndex t)) (recorded recs) (mkSample 0 false).
Proof.
  induction recs as [|[e v] r IH]; intros t Hi Hn i Hb.
  - cbn [List.length Z.of_nat] in Hb. rewrite (proj2 (Z.ltb_lt _ _)) by lia. reflexivity.
  - cbn [List.length] in Hn, Hb.
    destruct (ram_record_step t e v Hi) as (H1 & H2 & H3); [lia|].
    change (ram_run (RamRecords ((e, v) :: r)) t)
      with (ram_run (RamRecords r) (ram_step t (RamRecord e v))).
    rewrite IH by (rewrite ?H3; first [exact H1 | lia]).
    rewrite H3, (ram_record_buffer t e v (proj1 Hi)).
    destruct (Z.ltb_spec i (writeIndex t + 1)) as [L|L].
    + destruct (Z.eqb_spec i (writeIndex t)) as [E|E].
      * rewrite (proj2 (Z.ltb_nlt _ _)) by lia. subst i. rewrite Z.sub_diag. reflexivity.
      * rewrite (proj2 (Z.ltb_lt _ _)) by lia. reflexivity.
    + rewrite (proj2 (Z.ltb_nlt _ _)) by lia.
      replace (Z.to_nat (i - writeIndex t)) with (S (Z.to_nat (i - (writeIndex t + 1)))) by lia.
      reflexivity.
Qed.

Lemma jsonSamples_fst (n : nat) :
  forall (index : Z) (s : LogicAnalyzer), 0 <= index < BUFFER_SIZE ->
  fst (jsonSamples n index s) =
    map (fun k => sampleJSON (buffer s ((index + Z.of_nat k) mod BUFFER_SIZE))) (seq 0 n).
Proof.
  induction n as [|n IH]; intros index s Hi; [reflexivity|].
  cbn [jsonSamples]. unfold st_bind, gets, st_ret.
  destruct (jsonSamples n ((index + 1) mod BUFFER_SIZE) s) as [r s'] eqn:E.
  assert (Ro := jsonSamples_ro n ((index + 1) mod BUFFER_SIZE) s). rewrite E in Ro.
  cbn in Ro. subst s'. cbn [fst].
  assert (Hr : r = fst (jsonSamples n ((index + 1) mod BUFFER_SIZE) s)) by (rewrite E; reflexivity).
  rewrite Hr, IH by (apply Z.mod_pos_bound; reflexivity).
  cbn [seq map]. rewrite Z.add_0_r, (Z.mod_small index) by exact Hi.
  f_equal. rewrite <- seq_shift, map_map. apply map_ext. intros k.
  rewrite Z.add_mod_idemp_l by (unfold BUFFER_SIZE; lia).
  f_equal. f_equal. f_equal. lia.
Qed.

Lemma getDataAsJSON_fst (s : LogicAnalyzer) :
  fst (getDataAsJSON s) =
    "{" +s jkey "samples" +s "["
    +s join "," (fst (jsonSamples (Z.to_nat (getBufferUsage s)) (readIndex s) s)) +s "],"
    +s jkey "sample_count" +s String_of_Z (getBufferUsage s) +s ","
    +s jkey "sample_rate" +s String_of_Z (sampleRate s) +s ","
    +s jkey "gpio_pin" +s String_of_Z (gpio1Pin s) +s ","
    +s jkey "buffer_size" +s String_of_Z BUFFER_SIZE +s ","
    +s jkey "trigger_mode" +s String_of_Z (TriggerMode_to_Z (triggerMode s)) +s "}".
Proof.
  unfold getDataAsJSON, st_bind, gets, st_ret.
  destruct (jsonSamples (Z.to_nat (getBufferUsage s)) (readIndex s) s) as [r s'] eqn:E.
  assert (Ro := jsonSamples_ro (Z.to_nat (getBufferUsage s)) (readIndex s) s).
  rewrite E in Ro. cbn in Ro. subst s'. reflexivity.
Qed.

Lemma map_nth_seq0 {A} (d : A) (l : list A) :
  map (fun k => nth k l d) (seq 0 (List.length l)) = l.
Proof.
  induction l as [|x r IH]; [reflexivity|].
  cbn [List.length seq map nth]. f_equal.
  rewrite <- seq_shift, map_map. exact IH.
Qed.

Lemma ram_step_config (op : RamOp) (t : LogicAnalyzer) :
  bufferMode (logicConfig t) = BUFFER_RAM ->
  (sampleRate (ram_step t op), gpio1Pin (ram_step t op), triggerMode (ram_step t op)) =
  (sampleRate t, gpio1Pin t, triggerMode t).
Proof.
  intros Hm. destruct t; cbn in Hm.
  destruct op; unfold ram_step, addSample, clearBuffer; rsimpl; rewrite Hm; reflexivity.
Qed.

Lemma ram_run_config (ops : list RamOp) :
  forall t, ram_inv t ->
  (sampleRate (ram_run ops t), gpio1Pin (ram_run ops t), triggerMode (ram_run ops t)) =
  (sampleRate t, gpio1Pin t, triggerMode t).
Proof.
  induction ops as [|op r IH]; intros t Hi; [reflexivity|].
  change (ram_run (op :: r) t) with (ram_run r (ram_step t op)).
  rewrite IH by (apply ram_step_inv, Hi).
  apply ram_step_config, Hi.
Qed.

(** Property X2: A round trip through the RAM ring: after [clearBuffer] and [n <
    BUFFER_SIZE] calls of [addSample] in RAM mode, [getDataAsJSON] lists
    exactly the recorded samples, oldest first, each with the timestamp and
    level it was recorded with, and reports [sample_count = n]. *)
Theorem X_ram_json_roundtrip (s : LogicAnalyzer) (recs : list (Env * bool))
  (Hm : bufferMode (logicConfig s) = BUFFER_RAM)
  (Hn : Z.of_nat (List.length recs) < BUFFER_SIZE) :
  fst (getDataAsJSON (ram_run (RamRecords recs) (clearBuffer s))) =
    "{" +s jkey "samples" +s "[" +s join "," (map sampleJSON (recorded recs)) +s "],"
    +s jkey "sample_count" +s String_of_Z (Z.of_nat (List.length recs)) +s ","
    +s jkey "sample_rate" +s String_of_Z (sampleRate s) +s ","
    +s jkey "gpio_pin" +s String_of_Z (gpio1Pin s) +s ","
    +s jkey "buffer_size" +s String_of_Z BUFFER_SIZE +s ","
    +s jkey "trigger_mode" +s String_of_Z (TriggerMode_to_Z (triggerMode s)) +s "}".
Proof.
  set (s0 := clearBuffer s).
  assert (H0 : ram_inv s0 /\ readIndex s0 = 0 /\ writeIndex s0 = 0 /\
               (sampleRate s0, gpio1Pin s0, triggerMode s0) = (sampleRate s, gpio1Pin s, triggerMode s)).
  { subst s0. destruct s; cbn in Hm. unfold clearBuffer, ram_inv; rsimpl. rewrite Hm. rsimpl.
    splits; try reflexivity; try exact Hm; unfold BUFFER_SIZE; lia. }
  destruct H0 as (I0 & R0 & W0 & C0).
  destruct (ram_records_count recs s0 I0 R0 ltac:(rewrite W0; lia)) as (I1 & R1 & W1).
  fold (RamRecords recs) in I1, R1, W1.
  set (s1 := ram_run (RamRecords recs) s0) in *.
  assert (C1 := ram_run_config (RamRecords recs) s0 I0). fold s1 in C1. rewrite C0 in C1.
  injection C1 as C1r C1g C1t.
  assert (U : getBufferUsage s1 = Z.of_nat (List.length recs)).
  { unfold getBufferUsage. rewrite (proj1 I1). cbn [isFlashBacked]. rewrite R1, W1, W0. cbn [Z.add]. destruct (Z.leb_spec 0 (Z.of_nat (List.length recs))); lia. }
  rewrite getDataAsJSON_fst, U, R1, C1r, C1g, C1t, jsonSamples_fst by (unfold BUFFER_SIZE; lia).
  rewrite Nat2Z.id.
  replace (map _ (seq 0 (List.length recs))) with (map sampleJSON (recorded recs)); [reflexivity|].
  rewrite <- (map_nth_seq0 (mkSample 0 false) (recorded recs)), map_map.
  unfold recorded at 2. rewrite length_map. apply map_ext_in. intros k Hk.
  apply in_seq in Hk. f_equal.
  rewrite Z.add_0_l, Z.mod_small by (unfold BUFFER_SIZE in *; lia).
  subst s1. rewrite ram_records_buffer by (rewrite ?W0; first [exact I0 | lia]).
  rewrite W0, (proj2 (Z.ltb_nlt _ _)) by lia. rewrite Z.sub_0_r, Nat2Z.id. reflexivity.
Qed.

Lemma string_app_nil_r (a : string) : a +s EmptyString = a.
Proof. induction a as [|c r IH]; [reflexivity | cbn; rewrite IH; reflexivity]. Qed.

Lemma string_app_assoc (a b c : string) : a +s (b +s c) = (a +s b) +s c.
Proof. induction a as [|x r IH]; [reflexivity | cbn; rewrite IH; reflexivity]. Qed.

Lemma string_length_app (a b : string) :
  String.length (a +s b) = (String.length a + String.length b)%nat.
Proof. induction a as [|x r IH]; [reflexivity | cbn; rewrite IH; reflexivity]. Qed.

Lemma string_of_list_snoc (l : list ascii) (c : ascii) :
  string_of_list_ascii (l ++ [c]) = string_of_list_ascii l +s String c EmptyString.
Proof. induction l as [|x r IH]; [reflexivity | cbn; rewrite IH; reflexivity]. Qed.

Lemma string_of_list_length (l : list ascii) :
  String.length (string_of_list_ascii l) = List.length l.
Proof. induction l as [|x r IH]; [reflexivity | cbn; rewrite IH; reflexivity]. Qed.

Lemma u32_succ (x k : Z) : u32 (u32 x + k) = u32 (x + k).
Proof. unfold u32. apply Z.add_mod_idemp_l. lia. Qed.

Lemma addUartEntry_rx (e : Env) (d : string) (r : bool) (t : LogicAnalyzer) :
  uartRxBuffer (addUartEntry e d r t) = uartRxBuffer t /\
  uartBytesReceived (addUartEntry e d r t) = uartBytesReceived t.
Proof.
  destruct t; unfold addUartEntry, compactUartLogs, addLogEntry.
  repeat (rsimpl; match goal with
                  | |- context [if ?c then _ else _] =>
                      lazymatch c with context [if _ then _ else _] => fail | _ => destruct c end
                  end);
    rsimpl; split; reflexivity.
Qed.

Lemma addUartEntry_ulv (e : Env) (d : string) (r : bool) (t u : LogicAnalyzer) :
  uart_log_view t = uart_log_view u ->
  uart_log_view (addUartEntry e d r t) = uart_log_view (addUartEntry e d r u).
Proof.
  destruct t, u; intros H. unfold uart_log_view in H; rsimpl in *. inversion H; subst.
  unfold uart_log_view, addUartEntry, compactUartLogs, addLogEntry.
  repeat (rsimpl; match goal with
                  | |- context [if ?c then _ else _] =>
                      lazymatch c with context [if _ then _ else _] => fail | _ => destruct c end
                  end);
    rsimpl; reflexivity.
Qed.

Lemma feed_printable (e : Env) (t : LogicAnalyzer) (c : ascii) :
  is_printable c = true -> (String.length (uartRxBuffer t) < 1000)%nat ->
  uartRxBuffer (uartFeedByte e false t c) = uartRxBuffer t +s String c EmptyString /\
  uartBytesReceived (uartFeedByte e false t c) = u32 (uartBytesReceived t + 1) /\
  uart_log_view (uartFeedByte e false t c) = uart_log_view t.
Proof.
  unfold is_printable. intros Hp Hl. unfold uartFeedByte. cbv zeta.
  apply andb_prop in Hp. destruct Hp as [P1 P2].
  apply Z.leb_le in P1. apply Z.leb_le in P2.
  rewrite (proj2 (Z.eqb_neq _ 10)) by lia. rewrite (proj2 (Z.eqb_neq _ 13)) by lia.
  cbn [orb]. rewrite (proj2 (Z.leb_le _ _) P1), (proj2 (Z.leb_le _ _) P2). cbn [andb].
  destruct t; rsimpl in *.
  rewrite (proj2 (Nat.ltb_ge _ _))
    by (rewrite string_length_app; change (String.length (String c EmptyString)) with 1%nat; unfold UART_MSG_MAX_LENGTH; lia).
  unfold uart_log_view; rsimpl. splits; reflexivity.
Qed.

Lemma feed_printables (e : Env) (cs : list ascii) :
  forall (t : LogicAnalyzer), forallb is_printable cs = true ->
  (String.length (uartRxBuffer t) + List.length cs <= 1000)%nat ->
  uartRxBuffer (fold_left (uartFeedByte e false) cs t) =
    uartRxBuffer t +s string_of_list_ascii cs /\
  uart_log_view (fold_left (uartFeedByte e false) cs t) = uart_log_view t.
Proof.
  induction cs as [|c r IH]; intros t Hp Hl.
  - cbn. rewrite string_app_nil_r. split; reflexivity.
  - cbn [forallb] in Hp. apply andb_prop in Hp. destruct Hp as [P R].
    cbn [List.length] in Hl. cbn [fold_left].
    destruct (feed_printable e t c P ltac:(lia)) as (A & _ & C).
    destruct (IH (uartFeedByte e false t c) R) as (A' & C');
      [rewrite A, string_length_app; change (String.length (String c EmptyString)) with 1%nat; lia|].
    rewrite A', C', A, C, <- string_app_assoc. split; reflexivity.
Qed.

Lemma feedByte_count (e : Env) (dual : bool) (t : LogicAnalyzer) (c : ascii) :
  uartBytesReceived (uartFeedByte e dual t c) = u32 (uartBytesReceived t + 1).
Proof.
  unfold uartFeedByte. cbv zeta.
  repeat match goal with
         | |- context [if ?c then _ else _] => destruct c
         end;
  repeat match goal with
         | |- context [uartBytesReceived (apply_update ?u ?x)] =>
             change (uartBytesReceived (apply_update u x)) with (uartBytesReceived x)
         | |- context [uartBytesReceived (addUartEntry ?a ?b ?c ?d)] =>
             rewrite (proj2 (addUartEntry_rx a b c d))
         end; reflexivity.
Qed.

Lemma feed_count (e : Env) (dual : bool) (cs : list ascii) :
  forall (t : LogicAnalyzer) (c : ascii),
  uartBytesReceived (fold_left (uartFeedByte e dual) (c :: cs) t) =
    u32 (uartBytesReceived t + Z.of_nat (S (List.length cs))).
Proof.
  induction cs as [|c' r IH]; intros t c.
  - cbn [fold_left]. rewrite feedByte_count. reflexivity.
  - change (fold_left (uartFeedByte e dual) (c :: c' :: r) t)
      with (fold_left (uartFeedByte e dual) (c' :: r) (uartFeedByte e dual t c)).
    rewrite IH, feedByte_count, u32_succ. cbn [List.length]. f_equal. lia.
Qed.

Lemma eol_cond (c : ascii) :
  is_eol c = true ->
  (Z.of_nat (nat_of_ascii c) =? 10) || (Z.of_nat (nat_of_ascii c) =? 13) = true.
Proof. unfold is_eol. exact (fun H => H). Qed.

Lemma feed_eol_line (e : Env) (t : LogicAnalyzer) (c : ascii) :
  is_eol c = true -> (0 < String.length (uartRxBuffer t))%nat ->
  uartRxBuffer (uartFeedByte e false t c) = EmptyString /\
  uart_log_view (uartFeedByte e false t c) =
    uart_log_view (addUartEntry e (uartRxBuffer t) true t).
Proof.
  intros He Hl. unfold uartFeedByte. cbv zeta. rewrite (eol_cond c He).
  destruct t; rsimpl in *. rewrite (proj2 (Nat.ltb_lt _ _) Hl).
  rewrite string_app_nil_r. split; [reflexivity|].
  change (uart_log_view (apply_update ?u ?x)) with (uart_log_view x).
  apply addUartEntry_ulv. reflexivity.
Qed.

Lemma feed_eol_empty (e : Env) (t : LogicAnalyzer) (c : ascii) :
  is_eol c = true -> uartRxBuffer t = EmptyString ->
  uartRxBuffer (uartFeedByte e false t c) = EmptyString /\
  uart_log_view (uartFeedByte e false t c) = uart_log_view t.
Proof.
  intros He Hr. unfold uartFeedByte. cbv zeta. rewrite (eol_cond c He).
  destruct t; rsimpl in *. subst. split; reflexivity.
Qed.

Lemma feed_eols (e : Env) (term : list ascii) :
  forall (t : LogicAnalyzer), forallb is_eol term = true -> uartRxBuffer t = EmptyString ->
  uartRxBuffer (fold_left (uartFeedByte e false) term t) = EmptyString /\
  uart_log_view (fold_left (uartFeedByte e false) term t) = uart_log_view t.
Proof.
  induction term as [|c r IH]; intros t He Hr; [split; [exact Hr | reflexivity]|].
  cbn [forallb] in He. apply andb_prop in He. destruct He as [E R].
  cbn [fold_left]. destruct (feed_eol_empty e t c E Hr) as [A B].
  destruct (IH _ R A) as [A' B']. rewrite A', B', B. split; reflexivity.
Qed.

Lemma frame_line (e : Env) (line term : list ascii) (s : LogicAnalyzer) :
  uartRxBuffer s = EmptyString ->
  forallb is_printable line = true -> (0 < List.length line <= 1000)%nat ->
  forallb is_eol term = true -> term <> [] ->
  uartRxBuffer (fold_left (uartFeedByte e false) (line ++ term) s) = EmptyString /\
  uart_log_view (fold_left (uartFeedByte e false) (line ++ term) s) =
    uart_log_view (addUartEntry e (string_of_list_ascii line) true s).
Proof.
  intros Hrx Hp Hl He Ht.
  rewrite fold_left_app.
  destruct (feed_printables e line s Hp) as [A B]; [rewrite Hrx; cbn [String.length]; lia|].
  rewrite Hrx in A. cbn [String.append] in A.
  set (t1 := fold_left (uartFeedByte e false) line s) in *.
  destruct term as [|c r]; [congruence|].
  cbn [forallb] in He. apply andb_prop in He. destruct He as [E R].
  cbn [fold_left].
  destruct (feed_eol_line e t1 c E) as [A2 B2];
    [rewrite A, string_of_list_length; lia|].
  destruct (feed_eols e r _ R A2) as [A3 B3].
  split; [exact A3|].
  rewrite B3, B2, A. apply addUartEntry_ulv. exact B.
Qed.

Lemma feed_overflow (e : Env) (t : LogicAnalyzer) (c : ascii) :
  is_printable c = true -> String.length (uartRxBuffer t) = 1000%nat ->
  uartRxBuffer (uartFeedByte e false t c) = EmptyString /\
  uart_log_view (uartFeedByte e false t c) =
    uart_log_view (addUartEntry e (uartRxBuffer t +s String c EmptyString +s " [TRUNCATED]") true t).
Proof.
  unfold is_printable. intros Hp Hl. unfold uartFeedByte. cbv zeta.
  apply andb_prop in Hp. destruct Hp as [P1 P2].
  apply Z.leb_le in P1. apply Z.leb_le in P2.
  rewrite (proj2 (Z.eqb_neq _ 10)) by lia. rewrite (proj2 (Z.eqb_neq _ 13)) by lia.
  cbn [orb]. rewrite (proj2 (Z.leb_le _ _) P1), (proj2 (Z.leb_le _ _) P2). cbn [andb].
  destruct t; rsimpl in *.
  rewrite (proj2 (Nat.ltb_lt _ _))
    by (rewrite string_length_app; change (String.length (String c EmptyString)) with 1%nat;
        unfold UART_MSG_MAX_LENGTH; lia).
  split; [reflexivity|].
  change (uart_log_view (apply_update ?u ?x)) with (uart_log_view x).
  rewrite string_app_assoc. apply addUartEntry_ulv. reflexivity.
Qed.

(** Property X13: Line framing of the UART monitor: from an empty receive buffer, a line
    of 1 to 1000 printable characters followed by one or more CR/LF bytes is
    logged as exactly one RX entry holding the line (the extra terminators
    add nothing), the receive buffer ends empty, and every byte is counted
    in [uartBytesReceived]. *)
Theorem X_uart_line_framing (e : Env) (line term : list ascii) (s : LogicAnalyzer)
  (Hrx : uartRxBuffer s = EmptyString)
  (Hp : forallb is_printable line = true) (Hl : (0 < List.length line <= 1000)%nat)
  (He : forallb is_eol term = true) (Ht : term <> []) :
  uartRxBuffer (fold_left (uartFeedByte e false) (line ++ term) s) = EmptyString /\
  uart_log_view (fold_left (uartFeedByte e false) (line ++ term) s) =
    uart_log_view (addUartEntry e (string_of_list_ascii line) true s) /\
  uartBytesReceived (fold_left (uartFeedByte e false) (line ++ term) s) =
    u32 (uartBytesReceived s + Z.of_nat (List.length line + List.length term)).
Proof.
  assert (Cnt : uartBytesReceived (fold_left (uartFeedByte e false) (line ++ term) s) =
                u32 (uartBytesReceived s + Z.of_nat (List.length line + List.length term))).
  { destruct line as [|c0 l0]; [cbn in Hl; lia|].
    change ((c0 :: l0) ++ term) with (c0 :: (l0 ++ term)).
    rewrite feed_count, length_app. cbn [List.length]. f_equal; lia. }
  rewrite Cnt. clear Cnt.
  destruct (frame_line e line term s Hrx Hp Hl He Ht) as [A B].
  splits; [exact A | exact B | reflexivity].
Qed.

(** Property X14: A received line longer than [UART_MSG_MAX_LENGTH] is split, not cut:
    its first 1001 characters are logged as one RX entry marked
    [" [TRUNCATED]"], and the characters after them, up to the CR/LF, as a
    second entry; no byte is dropped. *)
Theorem X_uart_long_line_split (e : Env) (line rest term : list ascii) (s : LogicAnalyzer)
  (Hrx : uartRxBuffer s = EmptyString)
  (Hp : forallb is_printable line = true) (Hl : List.length line = 1001%nat)
  (Hp2 : forallb is_printable rest = true) (Hl2 : (0 < List.length rest <= 1000)%nat)
  (He : forallb is_eol term = true) (Ht : term <> []) :
  uartRxBuffer (fold_left (uartFeedByte e false) (line ++ rest ++ term) s) = EmptyString /\
  uart_log_view (fold_left (uartFeedByte e false) (line ++ rest ++ term) s) =
    uart_log_view
      (addUartEntry e (string_of_list_ascii rest) true
         (addUartEntry e (string_of_list_ascii line +s " [TRUNCATED]") true s)).
Proof.
  destruct (exists_last (l := line)) as (l0 & c & E); [intros H; subst; discriminate Hl|].
  subst line. rewrite length_app in Hl. cbn [List.length] in Hl.
  rewrite forallb_app in Hp. cbn [forallb] in Hp. rewrite andb_true_r in Hp.
  apply andb_prop in Hp. destruct Hp as [P0 Pc].
  rewrite <- app_assoc, fold_left_app. cbn [app fold_left].
  destruct (feed_printables e l0 s P0) as [A B]; [rewrite Hrx; cbn [String.length]; lia|].
  rewrite Hrx in A. cbn [String.append] in A.
  set (t1 := fold_left (uartFeedByte e false) l0 s) in *.
  destruct (feed_overflow e t1 c Pc) as [A2 B2]; [rewrite A, string_of_list_length; lia|].
  destruct (frame_line e rest term _ A2 Hp2 Hl2 He Ht) as [A3 B3].
  split; [exact A3|].
  rewrite B3. apply addUartEntry_ulv. rewrite B2, A, string_of_list_snoc, string_app_assoc.
  apply addUartEntry_ulv. exact B.
Qed.

(** Property X15: The UART monitor never touches the logic analyzer: however many loop
    iterations call [processUartData], in any duplex mode and whatever
    bytes arrive, the capture, ring, flash, compression and streaming
    state and the configuration are left as they were. *)
Theorem X_uart_monitor_keeps_capture (es : list Env) :
  forall (s : LogicAnalyzer),
  capture_view (fold_left (fun t e => processUartData e t) es s) = capture_view s.
Proof.
  induction es as [|e r IH]; intros s; [reflexivity|].
  cbn [fold_left]. rewrite IH. apply processUartData_cv.
Qed.

Lemma X_compressAll_capacity_witness :
  compressedCount (compressAll rle_input rle_state) <= COMPRESSED_CAPACITY.
Proof.
  apply (proj1 (X_compressAll_capacity rle_input rle_state ltac:(vm_compute; congruence))).
Defined.

Lemma X_hybrid_run_records_witness :
  compressedBuffer (compressAll (mkSample 10 true :: [mkSample 11 true; mkSample 12 true]
                                   ++ [mkSample 13 false]) hybrid_state) =
    Some ([] ++ [mkCompressed 0 1 false COMPRESS_RLE;
                 mkCompressed (u32 (10 - 0)) 1 true COMPRESS_DELTA;
                 mkCompressed (last (map timestamp [mkSample 11 true; mkSample 12 true]) 10)
                              (Z.of_nat 2 + 1) true COMPRESS_RLE;
                 mkCompressed (u32 (13 - last (map timestamp [mkSample 11 true; mkSample 12 true]) 10))
                              1 false COMPRESS_DELTA]).
Proof.
  apply (X_hybrid_run_records hybrid_state [] (mkSample 10 true) (mkSample 13 false)
           [mkSample 11 true; mkSample 12 true]);
    [vm_compute; reflexivity | vm_compute; reflexivity | cbn; lia
    | vm_compute; split; congruence | vm_compute; congruence
    | repeat constructor | cbn; congruence | cbn; lia].
Defined.

Lemma X_compressed_capture_never_stops_witness :
  capturing (run_ticks (ticksFrom 100 [true; false; true])
               (startCapture env0 (setBufferMode env0 BUFFER_COMPRESSED LogicAnalyzer_new))) = true.
Proof.
  apply (proj1 (X_compressed_capture_never_stops env0 (ticksFrom 100 [true; false; true])
                  (setBufferMode env0 BUFFER_COMPRESSED LogicAnalyzer_new)
                  ltac:(vm_compute; reflexivity))).
Defined.

Lemma X_log_window_witness :
  serialLogBuffer (addLogEntries [(1, "a"); (2, "b")] LogicAnalyzer_new) =
    log_window (serialLogBuffer LogicAnalyzer_new ++ [logLine 1 "a"; logLine 2 "b"]).
Proof.
  apply (X_log_window [(1, "a"); (2, "b")] LogicAnalyzer_new). vm_compute. lia.
Defined.

Lemma X_compression_ratio_witness :
  getCompressionRatio LogicAnalyzer_new = 0.
Proof.
  apply (proj1 (X_compression_ratio LogicAnalyzer_new ltac:(vm_compute; split; congruence))).
  left. reflexivity.
Defined.

Lemma X_stopStreaming_final_witness :
  streamingActive (stopStreaming env0 (setBufferMode env0 BUFFER_STREAMING LogicAnalyzer_new))
    = false.
Proof.
  apply (proj1 (X_stopStreaming_final env0 env0 true
                  (setBufferMode env0 BUFFER_STREAMING LogicAnalyzer_new)
                  ltac:(vm_compute; reflexivity))).
Defined.

Lemma X_uart_ram_bound_witness :
  Z.of_nat (List.length (uartLogBuffer
    (addUartEntries (repeat (env_fs_fail, "x", true) 7)
       (setUartBufferSize env_fs_fail 5 (initFlashStorage env_fs_fail LogicAnalyzer_new))))) <= 5.
Proof.
  apply (X_uart_ram_bound env_fs_fail 5 (repeat (env_fs_fail, "x", true) 7)
           (initFlashStorage env_fs_fail LogicAnalyzer_new));
    [lia | vm_compute; reflexivity].
Defined.

Lemma X_uart_small_capacity_never_compacts_witness :
  uartLogBuffer (addUartEntries (repeat (env_fs_fail, "x", true) 7)
       (setUartBufferSize env_fs_fail 2 (initFlashStorage env_fs_fail LogicAnalyzer_new))) =
    uartLogBuffer (setUartBufferSize env_fs_fail 2 (initFlashStorage env_fs_fail LogicAnalyzer_new))
    ++ map (fun '(e', d, r) => uartEntry e' d r) (repeat (env_fs_fail, "x", true) 7).
Proof.
  apply (X_uart_small_capacity_never_compacts env_fs_fail 2 (repeat (env_fs_fail, "x", true) 7)
           (initFlashStorage env_fs_fail LogicAnalyzer_new));
    [lia | vm_compute; reflexivity].
Defined.

Lemma X_flash_fallback_survives_clear_witness :
  uartLogBuffer (clearUartLogs env0 (addUartEntry env_fs_fail "x" true LogicAnalyzer_new)) =
    uartLogBuffer LogicAnalyzer_new ++ [uartEntry env_fs_fail "x" true].
Proof.
  apply (proj1 (X_flash_fallback_survives_clear env_fs_fail env0 "x" true LogicAnalyzer_new
                  eq_refl eq_refl eq_refl)).
Defined.

Lemma X_high_rate_samples_every_call_witness :
  sampleInterval (setSampleRate 2000000 (fresh_capture TRIGGER_NONE)) = 0.
Proof.
  apply (proj1 (X_high_rate_samples_every_call 2000000 (tickEnv 7 true) (fresh_capture TRIGGER_NONE)
                  ltac:(lia) ltac:(vm_compute; reflexivity) ltac:(vm_compute; reflexivity)
                  ltac:(vm_compute; reflexivity) ltac:(vm_compute; reflexivity))).
Defined.

Lemma X_ram_json_roundtrip_witness :
  fst (getDataAsJSON (ram_run (RamRecords [(env0, true); (tickEnv 5 false, false)])
                        (clearBuffer (setBufferMode env0 BUFFER_RAM LogicAnalyzer_new)))) =
    "{" +s jkey "samples" +s "["
    +s join "," (map sampleJSON (recorded [(env0, true); (tickEnv 5 false, false)])) +s "],"
    +s jkey "sample_count" +s String_of_Z 2 +s ","
    +s jkey "sample_rate" +s String_of_Z (sampleRate LogicAnalyzer_new) +s ","
    +s jkey "gpio_pin" +s String_of_Z (gpio1Pin LogicAnalyzer_new) +s ","
    +s jkey "buffer_size" +s String_of_Z BUFFER_SIZE +s ","
    +s jkey "trigger_mode" +s String_of_Z (TriggerMode_to_Z (triggerMode LogicAnalyzer_new)) +s "}".
Proof.
  apply (X_ram_json_roundtrip (setBufferMode env0 BUFFER_RAM LogicAnalyzer_new)
           [(env0, true); (tickEnv 5 false, false)]);
    [vm_compute; reflexivity | vm_compute; reflexivity].
Defined.

Lemma X_uart_line_framing_witness :
  uart_log_view (fold_left (uartFeedByte env0 false) (uart_line ++ crlf) LogicAnalyzer_new) =
    uart_log_view (addUartEntry env0 (string_of_list_ascii uart_line) true LogicAnalyzer_new).
Proof.
  apply (proj1 (proj2 (X_uart_line_framing env0 uart_line crlf LogicAnalyzer_new
           eq_refl eq_refl ltac:(cbn; lia) eq_refl ltac:(discriminate)))).
Defined.

Lemma X_uart_long_line_split_witness :
  uart_log_view (fold_left (uartFeedByte env0 false)
                   (repeat "a"%char 1001 ++ uart_line ++ crlf) LogicAnalyzer_new) =
    uart_log_view
      (addUartEntry env0 (string_of_list_ascii uart_line) true
         (addUartEntry env0 (string_of_list_ascii (repeat "a"%char 1001) +s " [TRUNCATED]") true
            LogicAnalyzer_new)).
Proof.
  apply (proj2 (X_uart_long_line_split env0 (repeat "a"%char 1001) uart_line crlf LogicAnalyzer_new
           eq_refl ltac:(vm_compute; reflexivity) ltac:(apply repeat_length)
           eq_refl ltac:(cbn; lia) eq_refl ltac:(discriminate))).
Defined.

(** ** Trigger arming *)

(** What the UART monitor at the start of a non-dual tick leaves of the
    members the trigger code reads. *)
Lemma uart_pre_fields (e : Env) (s : LogicAnalyzer) :
  let t := if uartMonitoringEnabled s then processUartData e s else s in
  capturing t = capturing s /\ lastSampleTime t = lastSampleTime s /\
  sampleInterval t = sampleInterval s /\ triggerMode t = triggerMode s /\
  triggerArmed t = triggerArmed s /\ lastState t = lastState s /\
  (dualModeActive s && uartMonitoringEnabled s = false ->
   dualModeActive t && uartMonitoringEnabled t = false).
Proof.
  cbv zeta. destruct (uartMonitoringEnabled s) eqn:Hu;
    [|splits; auto; intros _; rewrite Hu; apply andb_false_r].
  pose proof (processUartData_cv e s) as Hv. unfold capture_view, logic_view in Hv.
  splits; try congruence.
  intros H. rewrite andb_true_r in H.
  replace (dualModeActive (processUartData e s)) with (dualModeActive s) by congruence.
  rewrite H. reflexivity.
Qed.

Lemma process_trigger_wait (e : Env) (s : LogicAnalyzer) :
  capturing s = true ->
  dualModeActive s && uartMonitoringEnabled s = false ->
  triggerArmed s = false ->
  triggerMode s <> TRIGGER_NONE ->
  (sampleInterval s <=? u32 (u32 (now_us e) - lastSampleTime s)) = true ->
  let t := if uartMonitoringEnabled s then processUartData e s else s in
  process e s =
    (if checkTrigger t (pin e)
     then addLogEntry (now_ms e) "Trigger activated on GPIO1" (t{{ triggerArmed := true }})
     else t){{ lastState := pin e }}.
Proof.
  intros Hc Hdu Ha Hm Hd t.
  destruct (uart_pre_fields e s) as (C & L & I & M & A & _ & _). fold t in C, L, I, M, A.
  unfold process. rewrite Hdu. cbn [andb]. cbv zeta. fold t.
  rewrite C, Hc. cbn [negb]. rewrite I, L, Hd, A, Ha, M.
  destruct (triggerMode s); [congruence | ..]; reflexivity.
Qed.

Lemma armIndex_wait (ticks : list Env) :
  forall (s : LogicAnalyzer) (i : nat),
  capturing s = true ->
  dualModeActive s && uartMonitoringEnabled s = false ->
  triggerArmed s = false ->
  triggerMode s <> TRIGGER_NONE ->
  Forall (fun e => (sampleInterval s <=? u32 (u32 (now_us e) - lastSampleTime s)) = true) ticks ->
  armIndex ticks s i = firstTrigger (triggerMode s) (lastState s) (map pin ticks) i.
Proof.
  induction ticks as [|e r IH]; intros s i Hc Hdu Ha Hm Hall; [reflexivity|].
  inversion Hall as [|? ? Hd Hr]; subst.
  cbn [armIndex map firstTrigger].
  rewrite (process_trigger_wait e s Hc Hdu Ha Hm Hd).
  destruct (uart_pre_fields e s) as (C & L & I & M & A & LS & D).
  set (t := if uartMonitoringEnabled s then processUartData e s else s) in *.
  rewrite checkTrigger_spec, M, LS.
  destruct (spec_evaluate (triggerMode s) (lastState s) (pin e)); [reflexivity|].
  change (triggerArmed (t{{ lastState := pin e }})) with (triggerArmed t). rewrite A, Ha.
  rewrite (IH (t{{ lastState := pin e }}) (S i)).
  - change (triggerMode (t{{ lastState := pin e }})) with (triggerMode t).
    change (lastState (t{{ lastState := pin e }})) with (pin e).
    rewrite M. reflexivity.
  - change (capturing (t{{ lastState := pin e }})) with (capturing t). rewrite C. exact Hc.
  - exact (D Hdu).
  - change (triggerArmed (t{{ lastState := pin e }})) with (triggerArmed t). rewrite A. exact Ha.
  - change (triggerMode (t{{ lastState := pin e }})) with (triggerMode t). rewrite M. exact Hm.
  - eapply Forall_impl; [|exact Hr]. intros x Hx.
    change (sampleInterval (t{{ lastState := pin e }})) with (sampleInterval t).
    change (lastSampleTime (t{{ lastState := pin e }})) with (lastSampleTime t).
    rewrite I, L. exact Hx.
Qed.

(** Claim C1 (as the code is): [checkTrigger] is, in every state and every
    mode (NONE included), the table of the trigger modes over the stored
    previous level [lastState] and the current level.  While a capture with
    a trigger mode other than NONE waits for its trigger outside dual mode
    (dual mode or UART monitoring off), with a sample due at every tick,
    the tick at which it arms is the first index where the table fires, the
    first sample being compared with the [lastState] left from before the
    capture: [false] on a fresh analyzer, and [startCapture] does not reset
    it.  So RISING on [false; false; true] arms at index 2 in both cases,
    while BOTH_EDGES on [true; true; false; false; true] arms at index 0 on
    a fresh analyzer and at index 2 only when the previous level was
    high. *)
Theorem C1_trigger_from_lastState :
  (forall (s : LogicAnalyzer) (c : bool),
   checkTrigger s c = spec_evaluate (triggerMode s) (lastState s) c) /\
  (forall (ticks : list Env) (s : LogicAnalyzer),
   capturing s = true -> dualModeActive s && uartMonitoringEnabled s = false ->
   triggerArmed s = false -> triggerMode s <> TRIGGER_NONE ->
   Forall (fun e => (sampleInterval s <=? u32 (u32 (now_us e) - lastSampleTime s)) = true)
     ticks ->
   armIndex ticks s 0 = firstTrigger (triggerMode s) (lastState s) (map pin ticks) 0) /\
  lastState LogicAnalyzer_new = false /\
  (forall e t, lastState (startCapture e t) = lastState t) /\
  armIndex (ticksFrom 100 [false; false; true]) (fresh_capture TRIGGER_RISING_EDGE) 0 = Some 2%nat /\
  armIndex (ticksFrom 100 [false; false; true]) (capture_after_high TRIGGER_RISING_EDGE) 0
    = Some 2%nat /\
  armIndex (ticksFrom 100 [true; true; false; false; true]) (fresh_capture TRIGGER_BOTH_EDGES) 0
    = Some 0%nat /\
  armIndex (ticksFrom 100 [true; true; false; false; true]) (capture_after_high TRIGGER_BOTH_EDGES) 0
    = Some 2%nat.
Proof.
  split; [intros s c; apply checkTrigger_spec|].
  split; [intros ticks s; apply armIndex_wait|].
  split; [reflexivity|].
  split; [intros e t; destruct t; unfold startCapture, clearBuffer, addLogEntry; rsimpl;
          destruct (isFlashBacked _); reflexivity|].
  splits; vm_compute; reflexivity.
Qed.

Lemma C1_trigger_from_lastState_witness :
  armIndex (ticksFrom 100 [true; true; false; false; true]) (fresh_capture TRIGGER_BOTH_EDGES) 0 =
  firstTrigger (triggerMode (fresh_capture TRIGGER_BOTH_EDGES))
    (lastState (fresh_capture TRIGGER_BOTH_EDGES))
    (map pin (ticksFrom 100 [true; true; false; false; true])) 0.
Proof.
  assert (Hc : capturing (fresh_capture TRIGGER_BOTH_EDGES) = true) by (vm_compute; reflexivity).
  assert (Hu : dualModeActive (fresh_capture TRIGGER_BOTH_EDGES)
               && uartMonitoringEnabled (fresh_capture TRIGGER_BOTH_EDGES) = false)
    by (vm_compute; reflexivity).
  assert (Ha : triggerArmed (fresh_capture TRIGGER_BOTH_EDGES) = false)
    by (vm_compute; reflexivity).
  assert (Hm : triggerMode (fresh_capture TRIGGER_BOTH_EDGES) <> TRIGGER_NONE)
    by (intro H; vm_compute in H; discriminate H).
  assert (Hd : Forall (fun e => (sampleInterval (fresh_capture TRIGGER_BOTH_EDGES)
                 <=? u32 (u32 (now_us e) - lastSampleTime (fresh_capture TRIGGER_BOTH_EDGES)))
                 = true) (ticksFrom 100 [true; true; false; false; true]))
    by (cbn [ticksFrom]; repeat apply Forall_cons; try apply Forall_nil; vm_compute; reflexivity).
  exact (proj1 (proj2 C1_trigger_from_lastState) _ _ Hc Hu Ha Hm Hd).
Defined.

(** Claim C1, counterexample: on a fresh analyzer, BOTH_EDGES fed
    [true; true; false; false; true] arms at index 0 (the first sample differs
    from the initial [lastState = false]), not at index 2. *)
Lemma C1_counterexample :
  armIndex (ticksFrom 100 [true; true; false; false; true]) (fresh_capture TRIGGER_BOTH_EDGES) 0
    = Some 0%nat.
Proof. vm_compute. reflexivity. Qed.
